(** * DICOM-Anonymizer: the anonymization engine and the batch pipeline

    A shallow embedding of [dicom_anonymizer_app.py]: the class
    [DicomAnonymizer] (rule table, file discovery, loading, the engine
    [anonymize_dicom]) and [AnonymizationWorker.run], the batch loop.

    Python objects that the program mutates in place (the pydicom dataset,
    the [stats] dictionary) are threaded explicitly; exceptions are values
    of [exc]; the outside world (filesystem, codec I/O, the setter of an
    element's value, entropy for fresh UIDs, pathlib) is an interface,
    [Host]. *)

From Stdlib Require Import PrimFloat FloatOps Uint63.
From stdpp Require Import gmap strings list sorting pretty.

Local Open Scope string_scope.
Local Open Scope Z_scope.

(** ** Python results and exceptions *)

(** The outcome of a Python expression: a value, or a raised exception of
    which the program only ever looks at [str(e)]. *)
Inductive exc (A : Type) : Type :=
| Value (a : A)
| Raise (message : string).
Arguments Value {A} a.
Arguments Raise {A} message.

(** ** The part of pydicom the program uses *)
Module Pydicom.

(** A [BaseTag] is the 32-bit number [group << 16 | element]. *)
Definition group (tag : N) : N := N.shiftr tag 16.

(** [BaseTag.is_private]: the group number is odd. *)
Definition is_private (tag : N) : bool := N.odd (group tag).

(** The entries of pydicom's data dictionary for the keywords named in
    the program: keyword, tag, value representation. *)
Definition DicomDictionary : list (string * (N * string)) :=
  [ ("SOPInstanceUID",          (0x00080018%N, "UI"));
    ("StudyDate",               (0x00080020%N, "DA"));
    ("SeriesDate",              (0x00080021%N, "DA"));
    ("AcquisitionDate",         (0x00080022%N, "DA"));
    ("ContentDate",             (0x00080023%N, "DA"));
    ("AcquisitionDateTime",     (0x0008002A%N, "DT"));
    ("StudyTime",               (0x00080030%N, "TM"));
    ("SeriesTime",              (0x00080031%N, "TM"));
    ("ContentTime",             (0x00080033%N, "TM"));
    ("Manufacturer",            (0x00080070%N, "LO"));
    ("InstitutionName",         (0x00080080%N, "LO"));
    ("InstitutionAddress",      (0x00080081%N, "ST"));
    ("ReferringPhysicianName",  (0x00080090%N, "PN"));
    ("StationName",             (0x00081010%N, "SH"));
    ("StudyDescription",        (0x00081030%N, "LO"));
    ("SeriesDescription",       (0x0008103E%N, "LO"));
    ("PerformingPhysicianName", (0x00081050%N, "PN"));
    ("OperatorsName",           (0x00081070%N, "PN"));
    ("ManufacturerModelName",   (0x00081090%N, "LO"));
    ("PatientName",             (0x00100010%N, "PN"));
    ("PatientID",               (0x00100020%N, "LO"));
    ("PatientBirthDate",        (0x00100030%N, "DA"));
    ("PatientSex",              (0x00100040%N, "CS"));
    ("PatientAge",              (0x00101010%N, "AS"));
    ("PatientAddress",          (0x00101040%N, "LO"));
    ("PatientTelephoneNumbers", (0x00102154%N, "SH"));
    ("DeviceSerialNumber",      (0x00181000%N, "LO"));
    ("StudyInstanceUID",        (0x0020000D%N, "UI"));
    ("SeriesInstanceUID",       (0x0020000E%N, "UI")) ].

Fixpoint assoc {A : Type} (key : string) (table : list (string * A)) : option A :=
  match table with
  | [] => None
  | (k, a) :: rest => if String.eqb key k then Some a else assoc key rest
  end.

(** The value of a data element, as far as the engine can tell values
    apart: it stores Python strings, and reads a value only through
    [str()].  [PyObj shown] is any other object, with [str()] giving
    [shown]; [PyUnprintable err] is a value the conversion of which
    raises. Characters stand for code points. *)
Inductive py_value : Type :=
| PyStr (s : string)
| PyObj (shown : string)
| PyUnprintable (err : string).

Definition py_str (v : py_value) : exc string :=
  match v with
  | PyStr s => Value s
  | PyObj shown => Value shown
  | PyUnprintable err => Raise err
  end.

(** An element of a dataset.  An element read from a file stays as it
    was read, a [RawDataElement], until item access converts it;
    [conversion = Some err] marks a raw element the conversion of which
    raises, with text [err] (a value representation pydicom does not know,
    say).  Item access, [dicom_file[tag]], raises on such an element;
    membership tests, [del], [len()] and [keys()] do not look at it.  A raw
    element that converts is not told apart from a converted one. *)
Record DataElement : Type := {
  VR : string;
  value : py_value;
  conversion : option string
}.

(** A [Dataset] maps tags to data elements (at most one per tag). *)
Abbreviation Dataset := (gmap N DataElement).

(** What the engine may be handed: a dataset, or an object that is
    structurally not one, on which membership tests, item access and
    [keys()] all raise (with text [err]), and [len()] gives [len] or
    raises as well. *)
Inductive py_object : Type :=
| DatasetObj (ds : Dataset)
| Corrupt (len : option nat) (err : string).

(** [len(obj)] *)
Definition py_len (obj : py_object) : exc nat :=
  match obj with
  | DatasetObj ds => Value (size ds)
  | Corrupt (Some n) _ => Value n
  | Corrupt None err => Raise err
  end.

End Pydicom.
Export Pydicom.

(** ** The host of the program *)

(** Filesystem, codec I/O, entropy and pathlib, over a state [W] of the
    outside world.  Paths are their [str()]. *)
Class Host (W : Type) : Type := {
  (** [Path(p).exists()]: it raises the [OSError] of [stat()] when that is
      none of those pathlib ignores (a name that is too long, say) *)
  path_exists : string -> W -> exc bool;
  (** [[str(f) for f in Path(p).rglob('*.dcm')]] *)
  rglob_dcm : string -> W -> exc (list string);
  (** [pydicom.dcmread(p)] *)
  dcmread : string -> W -> exc py_object;
  (** [Path(p).mkdir(parents=True, exist_ok=True)] *)
  mkdir_parents : string -> W -> exc unit * W;
  (** [obj.save_as(p, write_like_original=False)] *)
  save_as : py_object -> string -> W -> exc unit * W;
  (** [pydicom.uid.generate_uid()] *)
  generate_uid : W -> string * W;
  (** the setter of [DataElement.value]: what [elem.value = s] stores in
      an element of value representation [vr] for a [str], or the exception
      of its conversion or validation *)
  convert_value : string -> string -> exc py_value;
  (** the entries of pydicom's data dictionary that [DicomDictionary]
      does not list *)
  other_entries : string -> option (N * string);
  (** [Path(p).name] *)
  path_name : string -> string;
  (** [Path(p).relative_to(base)] *)
  relative_to : string -> string -> exc string;
  (** [Path(a) / b] *)
  path_join : string -> string -> string;
  (** [Path(p).parent] *)
  path_parent : string -> string
}.

(** pydicom's data dictionary: the entries listed above, then the others. *)
Section Dictionary.
Context {W : Type} `{Host W}.

Definition dictionary_entry (keyword : string) : option (N * string) :=
  match assoc keyword DicomDictionary with
  | Some entry => Some entry
  | None => other_entries keyword
  end.

Definition tag_for_keyword (keyword : string) : option N :=
  fst <$> dictionary_entry keyword.

Definition dictionary_VR (keyword : string) : string :=
  default "UN" (snd <$> dictionary_entry keyword).

End Dictionary.

(** ** class DicomAnonymizer *)
Module DicomAnonymizer.

Record Rules : Type := {
  remove : list string;
  replace : list (string * string);
  date_shift : list (string * bool)
}.

Definition ANONYMIZATION_RULES : Rules := {|
  remove := [
    "PatientName"; "PatientID"; "PatientBirthDate"; "PatientAge";
    "PatientSex"; "PatientAddress"; "PatientTelephoneNumbers";
    "StudyInstanceUID"; "SeriesInstanceUID"; "StudyDate"; "SeriesDate";
    "ContentDate"; "StudyTime"; "SeriesTime"; "ContentTime";
    "AcquisitionDateTime"; "StudyDescription"; "SeriesDescription";
    "ReferringPhysicianName"; "PerformingPhysicianName"; "OperatorsName";
    "InstitutionName"; "InstitutionAddress"; "Manufacturer";
    "ManufacturerModelName"; "DeviceSerialNumber"; "StationName" ];
  replace := [
    ("PatientName", "ANONYMIZED");
    ("PatientID", "ANON-ID-001");
    ("ReferringPhysicianName", "ANONYMIZED");
    ("PerformingPhysicianName", "ANONYMIZED");
    ("OperatorsName", "ANONYMIZED");
    ("InstitutionName", "ANONYMIZED") ];
  date_shift := [
    ("StudyDate", true); ("SeriesDate", true); ("PatientBirthDate", true);
    ("ContentDate", true); ("AcquisitionDate", true) ]
|}.

(** The result tuple of [anonymize_dicom]: [(True, anonymized_count)] or
    [(False, str(e))]. *)
Inductive engine_result : Type :=
| EngineOk (anonymized_count : Z)
| EngineFailed (message : string).

Section Engine.
Context {W : Type} `{Host W}.

(** Statements of the engine body: they act on the object passed in
    (mutated in place) and on the world, and may raise; what was
    mutated before a raise stays mutated. *)
Definition M (A : Type) : Type := py_object * W -> exc A * (py_object * W).

Definition ret {A} (a : A) : M A := fun st => (Value a, st).

Definition bind {A B} (m : M A) (k : A -> M B) : M B := fun st =>
  match m st with
  | (Value a, st') => k a st'
  | (Raise e, st') => (Raise e, st')
  end.

Definition lift {A} (r : exc A) : M A := fun st => (r, st).

(** [try: body / except: handler] *)
Definition try_except {A} (body : M A) (handler : string -> M A) : M A := fun st =>
  match body st with
  | (Value a, st') => (Value a, st')
  | (Raise e, st') => handler e st'
  end.

Notation "'do' x <- m ; k" := (bind m (fun x => k))
  (at level 10, x name, m at level 100, k at level 200).
Notation "'exec' m ; k" := (bind m (fun _ => k))
  (at level 10, m at level 100, k at level 200).

(** [keyword in dicom_file] *)
Definition contains (keyword : string) : M bool := fun '(obj, w) =>
  match obj with
  | DatasetObj ds =>
      (Value (match tag_for_keyword keyword with
              | Some tag => bool_decide (is_Some (ds !! tag))
              | None => false
              end), (obj, w))
  | Corrupt _ err => (Raise err, (obj, w))
  end.

(** [del dicom_file[tag]] for a tag *)
Definition delitem_tag (tag : N) : M unit := fun '(obj, w) =>
  match obj with
  | DatasetObj ds =>
      match ds !! tag with
      | Some _ => (Value (), (DatasetObj (delete tag ds), w))
      | None => (Raise ("KeyError: " +:+ pretty tag), (obj, w))
      end
  | Corrupt _ err => (Raise err, (obj, w))
  end.

(** [del dicom_file[keyword]] *)
Definition delitem (keyword : string) : M unit :=
  match tag_for_keyword keyword with
  | Some tag => delitem_tag tag
  | None => fun '(obj, w) =>
      match obj with
      | DatasetObj _ => (Raise ("ValueError: " +:+ keyword), (obj, w))
      | Corrupt _ err => (Raise err, (obj, w))
      end
  end.

(** [dicom_file[keyword]]: item access converts the element, and
    raises when the conversion does. *)
Definition getitem (keyword : string) : M DataElement := fun '(obj, w) =>
  match obj with
  | DatasetObj ds =>
      match tag_for_keyword keyword ≫= (ds !!.) with
      | Some elem =>
          match conversion elem with
          | None => (Value elem, (obj, w))
          | Some err => (Raise err, (obj, w))
          end
      | None => (Raise ("KeyError: " +:+ keyword), (obj, w))
      end
  | Corrupt _ err => (Raise err, (obj, w))
  end.

(** [dicom_file[keyword].value] *)
Definition getitem_value (keyword : string) : M py_value :=
  do elem <- getitem keyword; ret (value elem).

(** [dicom_file[keyword].value = s]: item access, which converts the
    element or raises; then the setter, which converts [s] or raises; the
    dataset then holds the element with its new value. *)
Definition setitem_value (keyword : string) (s : string) : M unit := fun '(obj, w) =>
  match obj with
  | DatasetObj ds =>
      match tag_for_keyword keyword with
      | Some tag =>
          match ds !! tag with
          | Some elem =>
              match conversion elem with
              | Some err => (Raise err, (obj, w))
              | None =>
                  match convert_value (VR elem) s with
                  | Value v =>
                      (Value (),
                       (DatasetObj (<[tag := {| VR := VR elem; value := v;
                                                conversion := None |}]> ds), w))
                  | Raise err => (Raise err, (obj, w))
                  end
              end
          | None => (Raise ("KeyError: " +:+ keyword), (obj, w))
          end
      | None => (Raise ("KeyError: " +:+ keyword), (obj, w))
      end
  | Corrupt _ err => (Raise err, (obj, w))
  end.

(** [dicom_file.<keyword> = s], pydicom's [Dataset.__setattr__]: for a
    keyword of the dictionary, [self[tag].value = s] when the dataset has
    the tag and a new element otherwise; for any other name, a plain
    attribute of the object. *)
Definition setattr (keyword : string) (s : string) : M unit := fun '(obj, w) =>
  match obj with
  | DatasetObj ds =>
      match tag_for_keyword keyword with
      | Some tag =>
          match ds !! tag with
          | Some _ => setitem_value keyword s (obj, w)
          | None =>
              match convert_value (dictionary_VR keyword) s with
              | Value v =>
                  (Value (),
                   (DatasetObj (<[tag := {| VR := dictionary_VR keyword; value := v;
                                            conversion := None |}]> ds), w))
              | Raise err => (Raise err, (obj, w))
              end
          end
      | None => (Value (), (obj, w))
      end
  | Corrupt _ err => (Raise err, (obj, w))
  end.

(** [dicom_file.keys()] *)
Definition keys : M (list N) := fun '(obj, w) =>
  match obj with
  | DatasetObj ds => (Value (map_to_list ds).*1, (obj, w))
  | Corrupt _ err => (Raise err, (obj, w))
  end.

(** [generate_uid()] *)
Definition fresh_uid : M string := fun '(obj, w) =>
  let '(uid, w') := generate_uid w in (Value uid, (obj, w')).

(** [for x in xs: body], with the running [anonymized_count]. *)
Fixpoint for_each {A} (xs : list A) (body : A -> Z -> M Z) (count : Z) : M Z :=
  match xs with
  | [] => ret count
  | x :: rest => do count' <- body x count; for_each rest body count'
  end.

(** Lines 186-189. *)
Definition remove_tag (tag : string) (count : Z) : M Z :=
  do present <- contains tag;
  if present then exec delitem tag; ret (count + 1) else ret count.

(** Lines 192-195. *)
Definition replace_tag (item : string * string) (count : Z) : M Z :=
  let '(tag, replacement_value) := item in
  do present <- contains tag;
  if present then exec setitem_value tag replacement_value; ret (count + 1)
  else ret count.

(** Lines 198-207. *)
Definition shift_date (tag : string) (count : Z) : M Z :=
  do present <- contains tag;
  if present then
    try_except
      (do v <- getitem_value tag;
       do current_value <- lift (py_str v);
       if bool_decide (8 ≤ String.length current_value)%nat then
         let year := String.substring 0 4 current_value in
         exec setitem_value tag (year +:+ "0101");
         ret (count + 1)
       else ret count)
      (fun _ => ret count)
  else ret count.

(** Lines 210-213. *)
Definition remove_private_tags (count : Z) : M Z :=
  do all_keys <- keys;
  let tags_to_remove := filter (fun tag => is_private tag = true) all_keys in
  for_each tags_to_remove (fun tag count => exec delitem_tag tag; ret (count + 1)) count.

(** Lines 216-221, one of the three. *)
Definition regenerate (keyword : string) : M unit :=
  do present <- contains keyword;
  if present then do uid <- fresh_uid; setattr keyword uid else ret ().

Definition anonymize_body (rules : Rules) : M Z :=
  do c1 <- for_each (remove rules) remove_tag 0;
  do c2 <- for_each (replace rules) replace_tag c1;
  do c3 <- for_each (date_shift rules).*1 shift_date c2;
  do c4 <- remove_private_tags c3;
  exec regenerate "SOPInstanceUID";
  exec regenerate "StudyInstanceUID";
  exec regenerate "SeriesInstanceUID";
  ret c4.

(** [anonymize_dicom(dicom_file, rules=None)]: the result tuple, the
    object as the call leaves it, and the world. *)
Definition anonymize_dicom (dicom_file : py_object) (rules : option Rules) (w : W)
  : engine_result * py_object * W :=
  let rules := default ANONYMIZATION_RULES rules in
  match anonymize_body rules (dicom_file, w) with
  | (Value anonymized_count, (obj, w')) => (EngineOk anonymized_count, obj, w')
  | (Raise e, (obj, w')) => (EngineFailed e, obj, w')
  end.

(** Python's [sorted] on a list of [str]: ascending code-point order. *)
Definition str_le (a b : string) : Prop := String.leb a b.
Definition sorted (l : list string) : list string := merge_sort str_le l.

(** [find_dicom_files(directory)] *)
Definition find_dicom_files (directory : string) (w : W) : exc (list string) :=
  match path_exists directory w with
  | Value true =>
      match rglob_dcm directory w with
      | Value dicom_files => Value (sorted dicom_files)
      | Raise e => Raise e
      end
  | Value false => Value (sorted [])
  | Raise e => Raise e
  end.

(** [load_dicom(file_path)] *)
Definition load_dicom (file_path : string) (w : W) : exc py_object :=
  match dcmread file_path w with
  | Value dicom_data => Value dicom_data
  | Raise e => Raise ("Error loading DICOM: " +:+ e)
  end.

End Engine.

End DicomAnonymizer.

(** ** class AnonymizationWorker *)
Module AnonymizationWorker.
Import DicomAnonymizer.

(** The [stats] dictionary of [run]. *)
Record Stats : Type := {
  total : Z;
  successful : Z;
  failed : Z;
  total_tags_removed : Z;
  errors : list string
}.

(** What [finished] carries: the statistics with ['status': 'success'],
    or [{'status': 'error', 'message': ...}]. *)
Inductive report : Type :=
| StatusSuccess (stats : Stats)
| StatusError (message : string).

(** The three signals of the worker. *)
Inductive signal : Type :=
| progress (percent : Z)
| status (text : string)
| finished (result : report).

(** [int(x)] on a binary64 float: truncation toward zero. *)
Definition int_of_float (x : float) : Z :=
  match Prim2SF x with
  | SpecFloat.S754_finite sign m e =>
      let magnitude := if 0 <=? e then Z.pos m * 2 ^ e else Z.pos m / 2 ^ (- e) in
      if sign then - magnitude else magnitude
  | _ => 0
  end.

Definition float_of_int (n : Z) : float := PrimFloat.of_uint63 (Uint63.of_Z n).

(** [int((idx / len(dicom_files)) * 100)], in binary64 as Python
    computes it (for lengths below 2^53). *)
Definition progress_percent (idx : Z) (n : nat) : Z :=
  int_of_float
    (PrimFloat.mul (PrimFloat.div (float_of_int idx) (float_of_int (Z.of_nat n)))
                   (float_of_int 100)).

(** [stats['failed'] += 1; stats['errors'].append(entry)] *)
Definition record_failure (stats : Stats) (entry : string) : Stats :=
  {| total := total stats;
     successful := successful stats;
     failed := failed stats + 1;
     total_tags_removed := total_tags_removed stats;
     errors := (errors stats ++ [entry])%list |}.

(** [stats['successful'] += 1] *)
Definition record_success (stats : Stats) : Stats :=
  {| total := total stats;
     successful := successful stats + 1;
     failed := failed stats;
     total_tags_removed := total_tags_removed stats;
     errors := errors stats |}.

(** [stats['total_tags_removed'] += k] *)
Definition add_tags_removed (stats : Stats) (k : Z) : Stats :=
  {| total := total stats;
     successful := successful stats;
     failed := failed stats;
     total_tags_removed := total_tags_removed stats + k;
     errors := errors stats |}.

Section Run.
Context {W : Type} `{Host W}.
Variables input_dir output_dir : string.

(** Lines 288-290: what follows the [try] statement of the loop body. *)
Definition after_file (n : nat) (idx : Z) (file_path : string) : list signal :=
  [ progress (progress_percent idx n);
    status ("Processing " +:+ pretty idx +:+ "/" +:+ pretty n +:+ ": "
            +:+ path_name file_path) ].

(** Lines 284-286, then on to lines 288-290. *)
Definition on_exception (n : nat) (idx : Z) (file_path : string)
    (stats : Stats) (e : string) (w : W) : Stats * list signal * W :=
  (record_failure stats (path_name file_path +:+ ": " +:+ e),
   after_file n idx file_path, w).

(** The body of the loop, lines 264-290, for the file of index [idx]
    among [n]. *)
Definition process_file (n : nat) (idx : Z) (file_path : string)
    (stats : Stats) (w : W) : Stats * list signal * W :=
  match load_dicom file_path w with
  | Raise e => on_exception n idx file_path stats e w
  | Value dicom_data =>
  match py_len dicom_data with
  | Raise e => on_exception n idx file_path stats e w
  | Value original_tag_count =>
  match anonymize_dicom dicom_data None w with
  | (EngineFailed result, _, w) =>
      (* [continue]: the rest of the body is skipped *)
      (record_failure stats (path_name file_path +:+ ": " +:+ result), [], w)
  | (EngineOk _, dicom_data, w) =>
  match relative_to file_path input_dir with
  | Raise e => on_exception n idx file_path stats e w
  | Value relative_path =>
  let output_file := path_join output_dir relative_path in
  match mkdir_parents (path_parent output_file) w with
  | (Raise e, w) => on_exception n idx file_path stats e w
  | (Value _, w) =>
  match save_as dicom_data output_file w with
  | (Raise e, w) => on_exception n idx file_path stats e w
  | (Value _, w) =>
  let stats := record_success stats in
  match py_len dicom_data with
  | Raise e => on_exception n idx file_path stats e w
  | Value tag_count =>
      (add_tags_removed stats (Z.of_nat original_tag_count - Z.of_nat tag_count),
       after_file n idx file_path, w)
  end end end end end end end.

(** [for idx, file_path in enumerate(dicom_files, idx): ...] *)
Fixpoint process_files (n : nat) (idx : Z) (dicom_files : list string)
    (stats : Stats) (w : W) : Stats * list signal * W :=
  match dicom_files with
  | [] => (stats, [], w)
  | file_path :: rest =>
      let '(stats, emitted, w) := process_file n idx file_path stats w in
      let '(stats, emitted', w) := process_files n (idx + 1) rest stats w in
      (stats, (emitted ++ emitted')%list, w)
  end.

(** [run()]: the signals emitted, in order, and the world it leaves. *)
Definition run (w : W) : list signal * W :=
  match find_dicom_files input_dir w with
  | Raise e => ([finished (StatusError e)], w)
  | Value [] => ([finished (StatusError "No DICOM files found")], w)
  | Value dicom_files =>
      let stats := {| total := Z.of_nat (length dicom_files);
                      successful := 0;
                      failed := 0;
                      total_tags_removed := 0;
                      errors := [] |} in
      match mkdir_parents output_dir w with
      | (Raise e, w) => ([finished (StatusError e)], w)
      | (Value _, w) =>
          let '(stats, emitted, w) :=
            process_files (length dicom_files) 1 dicom_files stats w in
          ((emitted ++ [finished (StatusSuccess stats)])%list, w)
      end
  end.

End Run.

End AnonymizationWorker.

(** * The vocabulary of the statements *)
Module Notions.
Import DicomAnonymizer AnonymizationWorker.

Section Vocabulary.
Context {W : Type} `{Host W}.

(** The tags a list of keywords resolves to. *)
Definition tags_of (keywords : list string) : list N := omap tag_for_keyword keywords.

(** What [elem.value = s] makes of an element reached by item access,
    or the exception: that of the conversion, or that of the setter. *)
Definition assigned (elem : DataElement) (s : string) : exc DataElement :=
  match conversion elem with
  | Some err => Raise err
  | None =>
      match convert_value (VR elem) s with
      | Value v => Value {| VR := VR elem; value := v; conversion := None |}
      | Raise err => Raise err
      end
  end.

(** The value the date-shift statement stores in an element, if it
    gets that far: the element converts, its value has a [str()] of 8
    characters or more, and the setter takes the new string. *)
Definition shifted_value (elem : DataElement) : option py_value :=
  match conversion elem with
  | Some _ => None
  | None =>
      match py_str (value elem) with
      | Value s =>
          if bool_decide (8 ≤ String.length s)%nat
          then match convert_value (VR elem) (String.substring 0 4 s +:+ "0101") with
               | Value v => Some v
               | Raise _ => None
               end
          else None
      | Raise _ => None
      end
  end.

(** What the date-shift statement makes of an element. *)
Definition shift_elem (elem : DataElement) : DataElement :=
  match shifted_value elem with
  | Some v => {| VR := VR elem; value := v; conversion := None |}
  | None => elem
  end.

(** The date-shift statement counts this element. *)
Definition shiftable (elem : DataElement) : bool :=
  bool_decide (is_Some (shifted_value elem)).

(** The keyword names an element of [ds] that the date shift counts. *)
Definition shift_applies (ds : Dataset) (keyword : string) : bool :=
  match tag_for_keyword keyword ≫= (ds !!.) with
  | Some elem => shiftable elem
  | None => false
  end.

(** The tags of the default remove list, and the two tags the default
    rules rewrite. *)
Definition removed_tags : list N := tags_of (remove ANONYMIZATION_RULES).
Definition acquisition_date : N := 0x00080022%N.
Definition sop_instance_uid : N := 0x00080018%N.

(** The default rules but for one keyword taken out of the remove list. *)
Definition without_removal (keyword : string) (rules : Rules) : Rules :=
  {| remove := filter (λ kw, kw ≠ keyword) (remove rules);
     replace := replace rules;
     date_shift := date_shift rules |}.

(** A signal other than [finished]. *)
Definition interim (s : signal) : Prop :=
  match s with finished _ => False | _ => True end.

(** [entry] is appended to the error list and [failed] grows by one;
    nothing else in the statistics changes. *)
Definition one_more_failure (entry : string) (before after : Stats) : Prop :=
  failed after = failed before + 1 ∧
  errors after = (errors before ++ [entry])%list ∧
  successful after = successful before ∧
  total after = total before ∧
  total_tags_removed after = total_tags_removed before.

(** The three ways through the loop body. *)
Inductive step_outcome (n : nat) (idx : Z) (file_path : string) (stats : Stats)
  : Stats → list signal → Prop :=
| step_raised e :
    step_outcome n idx file_path stats
      (record_failure stats (path_name file_path +:+ ": " +:+ e))
      (after_file n idx file_path)
| step_continue e :
    step_outcome n idx file_path stats
      (record_failure stats (path_name file_path +:+ ": " +:+ e))
      []
| step_saved k :
    step_outcome n idx file_path stats
      (add_tags_removed (record_success stats) k)
      (after_file n idx file_path).

(** A per-file failure: the codec cannot load the file, or the engine
    reports failure on what was loaded.  The first index is the error text
    that reaches the loop, the second the world afterwards. *)
Inductive file_fails (file_path : string) (w : W) : string → W → Prop :=
| load_error e :
    dcmread file_path w = Raise e →
    file_fails file_path w ("Error loading DICOM: " +:+ e) w
| engine_error obj k e obj' w' :
    dcmread file_path w = Value obj →
    py_len obj = Value k →
    anonymize_dicom obj None w = (EngineFailed e, obj', w') →
    file_fails file_path w e w'.

End Vocabulary.

End Notions.

(** * A host to run the program on: a filesystem in memory *)
Module InMemory.

Record world : Type := {
  (** the files, each with what [dcmread] makes of it *)
  tree : list (string * exc py_object);
  directories : list string;
  (** the files written by [save_as], latest first *)
  written : list (string * py_object);
  uid_seed : N
}.

Fixpoint last_slash (s : string) : option nat :=
  match s with
  | EmptyString => None
  | String c rest =>
      match last_slash rest with
      | Some i => Some (S i)
      | None => if Ascii.eqb c (Ascii.ascii_of_nat 47) then Some 0%nat else None
      end
  end.

Definition name_of (p : string) : string :=
  match last_slash p with
  | Some i => String.substring (S i) (String.length p - S i) p
  | None => p
  end.

Definition parent_of (p : string) : string :=
  match last_slash p with
  | Some i => String.substring 0 i p
  | None => "."
  end.

Definition ends_with (suffix s : string) : bool :=
  String.eqb suffix
    (String.substring (String.length s - String.length suffix) (String.length suffix) s).

Definition under (base p : string) : bool := String.prefix (base +:+ "/") p.

(** The longest file name the filesystem takes. *)
Definition NAME_MAX : nat := 255.

#[export] Instance host : Host world := {|
  path_exists p w :=
    if bool_decide (NAME_MAX < String.length (name_of p))%nat
    then Raise ("[Errno 36] File name too long: '" +:+ p +:+ "'")
    else Value (bool_decide (p ∈ directories w) || bool_decide (p ∈ (tree w).*1));
  rglob_dcm p w :=
    Value (filter (fun f => under p f && ends_with ".dcm" f) (tree w).*1);
  dcmread p w := default (Raise ("No such file: " +:+ p)) (assoc p (tree w));
  mkdir_parents p w :=
    (Value (), {| tree := tree w; directories := p :: directories w;
                  written := written w; uid_seed := uid_seed w |});
  save_as obj p w :=
    (Value (), {| tree := tree w; directories := directories w;
                  written := (p, obj) :: written w; uid_seed := uid_seed w |});
  generate_uid w :=
    ("2.25." +:+ pretty (uid_seed w),
     {| tree := tree w; directories := directories w;
        written := written w; uid_seed := uid_seed w + 1 |});
  convert_value vr s :=
    if String.eqb vr "AT"
    then Raise ("Unable to create an element tag from '" +:+ s +:+ "'")
    else Value (PyStr s);
  other_entries _ := None;
  path_name := name_of;
  relative_to p base :=
    if under base p
    then Value (String.substring (S (String.length base))
                  (String.length p - S (String.length base)) p)
    else Raise (p +:+ " is not in the subpath of " +:+ base);
  path_join a b := a +:+ "/" +:+ b;
  path_parent := parent_of
|}.

End InMemory.

(** * Inputs to run the program on *)
Module Inputs.
Import DicomAnonymizer AnonymizationWorker InMemory.

Definition patient_name : N := 0x00100010%N.
Definition study_date : N := 0x00080020%N.

Definition element (vr s : string) : DataElement :=
  {| VR := vr; value := PyStr s; conversion := None |}.

(** An element as read from the file, with a value representation that
    pydicom does not know: converting it raises. *)
Definition raw_element (vr : string) : DataElement :=
  {| VR := vr; value := PyObj "b'1.2.3'";
     conversion := Some ("Unknown Value Representation '" +:+ vr +:+ "'") |}.

(** A world with nothing in it. *)
Definition nowhere : world :=
  {| tree := []; directories := []; written := []; uid_seed := 0 |}.

(** A dataset with a patient name and nothing else. *)
Definition john_doe : Dataset := {[ patient_name := element "PN" "Doe^John" ]}.

(** A dataset with a study date and nothing else. *)
Definition dated : Dataset := {[ study_date := element "DA" "20210615" ]}.

(** What the engine leaves of a dataset under the default rules. *)
Definition anonymized (ds : Dataset) : option Dataset :=
  match anonymize_dicom (DatasetObj ds) None nowhere with
  | (EngineOk _, DatasetObj ds', _) => Some ds'
  | _ => None
  end.

(** A dataset with a patient name and a SOPInstanceUID that does not
    convert. *)
Definition unknown_vr : Dataset :=
  <[ patient_name := element "PN" "Doe^John" ]>
    {[ 0x00080018%N := raw_element "ZZ" ]}.

(** What is left of [unknown_vr] when the engine gives up. *)
Definition unknown_vr_left : Dataset := {[ 0x00080018%N := raw_element "ZZ" ]}.

(** A rule set in which one keyword is both replaced and date-shifted. *)
Definition overlapping_rules : Rules :=
  {| remove := [];
     replace := [("PatientName", "ANONYMIZED")];
     date_shift := [("PatientName", true)] |}.

Definition scan (id : string) : exc py_object :=
  Value (DatasetObj
    (<[ patient_name := element "PN" id ]>
       {[ 0x00280010%N := element "US" "512" ]})).

(** Three files that load and one that does not. *)
Definition ward : world :=
  {| tree := [ ("in/a.dcm", scan "A"); ("in/sub/b.dcm", scan "B");
               ("in/broken.dcm", Raise "Invalid DICOM"); ("in/c.dcm", scan "C");
               ("in/notes.txt", Raise "not DICOM") ];
     directories := ["in"; "in/sub"];
     written := [];
     uid_seed := 0 |}.

Definition ward_stats : Stats :=
  {| total := 4; successful := 3; failed := 1; total_tags_removed := 3;
     errors := ["broken.dcm: Error loading DICOM: Invalid DICOM"] |}.

(** A directory with one file; the codec loads it, as an object that has
    a length and on which the membership test raises. *)
Definition unreadable : world :=
  {| tree := [("in/scan.dcm", Value (Corrupt (Some 2%nat) "not a dataset"))];
     directories := ["in"];
     written := [];
     uid_seed := 0 |}.

(** The same directory with a file that the codec cannot load. *)
Definition unloadable : world :=
  {| tree := [("in/scan.dcm", Raise "Invalid DICOM")];
     directories := ["in"];
     written := [];
     uid_seed := 0 |}.

(** A directory with a file that loads as [unknown_vr], between two that
    load as plain scans. *)
Definition clinic : world :=
  {| tree := [ ("in/a.dcm", scan "A"); ("in/b.dcm", Value (DatasetObj unknown_vr));
               ("in/c.dcm", scan "C") ];
     directories := ["in"];
     written := [];
     uid_seed := 0 |}.

(** A name of 256 characters, one more than a file name may have. *)
Definition long_name : string := String.concat "" (replicate 256 "x").

(** A directory that exists and has no [.dcm] file in it. *)
Definition empty_dir : world :=
  {| tree := [("in/readme.txt", Raise "not DICOM")];
     directories := ["in"];
     written := [];
     uid_seed := 0 |}.

End Inputs.

(** * class DicomAnonymizerApp: the two handlers that use the engine *)

(** The handlers read their paths from text fields (already stripped
    here), talk to the user through message boxes, and leave the rest in a
    text widget.  A message box is kept by its kind and text; texts that the
    source decorates with pictographs are kept as data instead. *)
Module DicomAnonymizerApp.
Import DicomAnonymizer.

(** The eight keywords [verify_files] looks for. *)
Definition sensitive_tags : list string :=
  [ "PatientName"; "PatientID"; "PatientBirthDate";
    "ReferringPhysicianName"; "OperatorsName"; "InstitutionName";
    "StudyInstanceUID"; "SeriesInstanceUID" ].

(** What [verify_files] writes into the report. *)
Record Report : Type := {
  original_tags : nat;
  anonymized_tags : nat;
  tags_removed : Z;
  removed_count : nat;
  still_present : list string;
  pixel_data_present : bool
}.

(** The message box that follows the report. *)
Inductive verdict : Type :=
| AllRemoved
| SomePresent (tags : list string).

Inductive verify_outcome : Type :=
| VerifyWarning (text : string)
| VerifyCritical (text : string)
| Verified (report : Report) (box : verdict).

Inductive single_outcome : Type :=
| SingleWarning (text : string)
| SingleCritical (text : string)
| SingleSuccess (tags_removed : Z) (output_file : string).

(** Sequencing of expressions that may raise. *)
Definition and_then {A B} (r : exc A) (k : A -> exc B) : exc B :=
  match r with
  | Value a => k a
  | Raise e => Raise e
  end.

Section Handlers.
Context {W : Type} `{Host W}.

(** [os.path.isfile(p)] *)
Variable isfile : string -> W -> bool.

(** [keyword in obj], outside the engine. *)
Definition py_contains (obj : py_object) (keyword : string) : exc bool :=
  match obj with
  | DatasetObj ds =>
      Value (match tag_for_keyword keyword with
             | Some tag => bool_decide (is_Some (ds !! tag))
             | None => false
             end)
  | Corrupt _ err => Raise err
  end.

(** Lines 760-764. *)
Fixpoint check_tags (anonymized : py_object) (tags : list string)
    (removed_count : nat) (still_present : list string) : exc (nat * list string) :=
  match tags with
  | [] => Value (removed_count, still_present)
  | tag :: rest =>
      and_then (py_contains anonymized tag) (fun present =>
        if present
        then check_tags anonymized rest removed_count (still_present ++ [tag])%list
        else check_tags anonymized rest (S removed_count) still_present)
  end.

(** The [try] block of [verify_files], lines 741-780. *)
Definition verify_body (orig_file anon_file : string) (w : W) : exc (Report * verdict) :=
  and_then (load_dicom orig_file w) (fun original =>
  and_then (load_dicom anon_file w) (fun anonymized =>
  and_then (py_len original) (fun n_original =>
  and_then (py_len anonymized) (fun n_anonymized =>
  and_then (check_tags anonymized sensitive_tags 0 []) (fun '(removed, present) =>
  and_then (py_contains anonymized "PixelData") (fun pixels =>
  Value ({| original_tags := n_original;
            anonymized_tags := n_anonymized;
            tags_removed := Z.of_nat n_original - Z.of_nat n_anonymized;
            removed_count := removed;
            still_present := present;
            pixel_data_present := pixels |},
         match present with
         | [] => AllRemoved
         | _ => SomePresent present
         end))))))).

(** [verify_files()], lines 727-783. *)
Definition verify_files (orig_file anon_file : string) (w : W) : verify_outcome :=
  if String.eqb orig_file "" || negb (isfile orig_file w) then
    VerifyWarning "Please select original DICOM file"
  else if String.eqb anon_file "" || negb (isfile anon_file w) then
    VerifyWarning "Please select anonymized DICOM file"
  else
    match verify_body orig_file anon_file w with
    | Value (report, box) => Verified report box
    | Raise e => VerifyCritical ("Failed to verify: " +:+ e)
    end.

(** [anonymize_single_file()], lines 676-704: what the user is told, and
    the world afterwards. *)
Definition anonymize_single_file (input_file output_file : string) (w : W)
  : single_outcome * W :=
  if String.eqb input_file "" || negb (isfile input_file w) then
    (SingleWarning "Please select a valid input file", w)
  else if String.eqb output_file "" then
    (SingleWarning "Please specify output file", w)
  else
    let failed e w := (SingleCritical ("Failed to anonymize: " +:+ e), w) in
    match load_dicom input_file w with
    | Raise e => failed e w
    | Value dicom_data =>
    match anonymize_dicom dicom_data None w with
    | (EngineFailed result, _, w) => failed result w
    | (EngineOk result, dicom_data, w) =>
    match mkdir_parents (path_parent output_file) w with
    | (Raise e, w) => failed e w
    | (Value _, w) =>
    match save_as dicom_data output_file w with
    | (Raise e, w) => failed e w
    | (Value _, w) => (SingleSuccess result output_file, w)
    end end end end.

End Handlers.

End DicomAnonymizerApp.

(** * More vocabulary *)
Module Terms.
Import DicomAnonymizer AnonymizationWorker Notions.

(** The tag of PixelData, (7FE0,0010). *)
Definition pixel_data : N := 0x7FE00010%N.

(** What a pass through the loop body does to the statistics. *)
Definition grows (before after : Stats) : Prop :=
  failed after - Z.of_nat (length (errors after))
    = failed before - Z.of_nat (length (errors before)) ∧
  successful before ≤ successful after ∧
  failed before ≤ failed after ∧
  total_tags_removed before ≤ total_tags_removed after.

(** One if the default date shift counts AcquisitionDate in [ds], else zero. *)
Definition shift_bit {W : Type} `{Host W} (ds : Dataset) : Z :=
  if shift_applies ds "AcquisitionDate" then 1 else 0.

Section Terms.
Context {W : Type} `{Host W}.

(** [keyword in ds] for a dataset. *)
Definition holds (ds : Dataset) (keyword : string) : bool :=
  match tag_for_keyword keyword with
  | Some tag => bool_decide (is_Some (ds !! tag))
  | None => false
  end.

(** The tags that a rule set names, and the three the engine regenerates. *)
Definition named_tags (rules : Rules) : list N :=
  (tags_of (remove rules) ++ tags_of (replace rules).*1
     ++ tags_of (date_shift rules).*1)%list.

Definition uid_tags : list N :=
  tags_of ["SOPInstanceUID"; "StudyInstanceUID"; "SeriesInstanceUID"].

(** Every element of [after] sits at a tag that [before] has, with the
    same VR. *)
Definition keeps_elements (before after : Dataset) : Prop :=
  ∀ t e', after !! t = Some e' → ∃ e, before !! t = Some e ∧ VR e' = VR e.

(** From [before] to [after] no element was added, no VR changed, and
    nothing changed at a tag outside [touched]. *)
Definition within (touched : N → Prop) (before after : Dataset) : Prop :=
  keeps_elements before after ∧ ∀ t, ¬ touched t → after !! t = before !! t.

(** The tags the engine may touch under a rule set. *)
Definition touched_by (rules : Rules) (t : N) : Prop :=
  is_private t = true ∨ t ∈ named_tags rules ∨ t ∈ uid_tags.

(** The world when the loop of a run over [dicom_files], started in
    [w1], gets to the file of position [i] (counted from 0). *)
Definition world_at (input_dir output_dir : string) (dicom_files : list string)
    (i : nat) (w1 : W) : W :=
  (process_files input_dir output_dir (length dicom_files) 1 (take i dicom_files)
     {| total := Z.of_nat (length dicom_files); successful := 0; failed := 0;
        total_tags_removed := 0; errors := [] |} w1).2.

(** The file loads, has a length, and the engine reports failure on it. *)
Definition engine_gives_up (file_path : string) (w : W) : Prop :=
  ∃ obj k e obj' w',
    dcmread file_path w = Value obj ∧ py_len obj = Value k ∧
    anonymize_dicom obj None w = (EngineFailed e, obj', w').

(** The files of a loop with their indices, as [enumerate(files, idx)]. *)
Fixpoint numbered (idx : Z) (files : list string) : list (Z * string) :=
  match files with
  | [] => []
  | f :: rest => (idx, f) :: numbered (idx + 1) rest
  end.

End Terms.

End Terms.

(** * More inputs *)
Module Cases.
Import DicomAnonymizer AnonymizationWorker InMemory Inputs.

(** The in-memory host with one more entry of the data dictionary. *)
Definition pixel_host : Host world :=
  {| path_exists := @path_exists _ host;
     rglob_dcm := @rglob_dcm _ host;
     dcmread := @dcmread _ host;
     mkdir_parents := @mkdir_parents _ host;
     save_as := @save_as _ host;
     generate_uid := @generate_uid _ host;
     convert_value := @convert_value _ host;
     other_entries kw :=
       if String.eqb kw "PixelData" then Some (0x7FE00010%N, "OW") else None;
     path_name := @path_name _ host;
     relative_to := @relative_to _ host;
     path_join := @path_join _ host;
     path_parent := @path_parent _ host |}.

(** [os.path.isfile] on the in-memory tree. *)
Definition in_tree (p : string) (w : world) : bool := bool_decide (p ∈ (tree w).*1).

(** The default replace mapping with nothing removed or shifted. *)
Definition replace_only : Rules :=
  {| remove := []; replace := replace ANONYMIZATION_RULES; date_shift := [] |}.

(** A dataset with a name, an acquisition date, a private tag, an instance
    UID and pixel data. *)
Definition study : Dataset :=
  <[ patient_name := element "PN" "Doe^John" ]>
  (<[ 0x00080022%N := element "DA" "20210615" ]>
  (<[ 0x00090010%N := element "LO" "vendor" ]>
  (<[ 0x00080018%N := element "UI" "1.2.3" ]>
  {[ 0x7FE00010%N := element "OW" "pixels" ]}))).

(** What the engine makes of [study] in the empty world. *)
Definition study_anonymized : Dataset :=
  <[ 0x00080022%N := element "DA" "20210101" ]>
  (<[ 0x00080018%N := element "UI" "2.25.0" ]>
  {[ 0x7FE00010%N := element "OW" "pixels" ]}).

(** The empty world after one UID was drawn. *)
Definition nowhere_next : world :=
  {| tree := []; directories := []; written := []; uid_seed := 1 |}.

(** An original and what was saved for it. *)
Definition archive : world :=
  {| tree := [ ("raw/s.dcm", Value (DatasetObj study));
               ("anon/s.dcm", Value (DatasetObj study_anonymized)) ];
     directories := ["raw"; "anon"];
     written := [];
     uid_seed := 0 |}.

End Cases.

(** * Properties of the engine *)
Module EngineFacts.
Import DicomAnonymizer Notions Terms.

Ltac by_computation := apply (bool_decide_unpack _); vm_compute; exact I.

Section Phases.
Context {W : Type} `{Host W}.

Lemma elem_of_tags_of (tag : N) (keywords : list string) :
  tag ∈ tags_of keywords ↔ ∃ kw, kw ∈ keywords ∧ tag_for_keyword kw = Some tag.
Proof. unfold tags_of. rewrite list_elem_of_omap. reflexivity. Qed.

Lemma tags_of_cons (kw : string) (keywords : list string) :
  tags_of (kw :: keywords) =
  match tag_for_keyword kw with
  | Some tag => tag :: tags_of keywords
  | None => tags_of keywords
  end.
Proof. reflexivity. Qed.

Lemma decide_cons_ne (t tag : N) (l : list N) :
  t ≠ tag → bool_decide (t ∈ tag :: l) = bool_decide (t ∈ l).
Proof.
  intros Hne. apply bool_decide_ext. rewrite elem_of_cons. tauto.
Qed.

Lemma decide_cons_eq (tag : N) (l : list N) : bool_decide (tag ∈ tag :: l) = true.
Proof. apply bool_decide_true. left. Qed.

Lemma filter_agree {A} (P Q : A → Prop) `{∀ x, Decision (P x)} `{∀ x, Decision (Q x)}
    (l : list A) :
  (∀ x, x ∈ l → P x ↔ Q x) → filter P l = filter Q l.
Proof.
  induction l as [|x l IH]; intros Hpq; [done |].
  rewrite !filter_cons.
  assert (filter P l = filter Q l) as -> by (apply IH; intros y Hy; apply Hpq; now right).
  destruct (decide (P x)) as [Hp|Hp], (decide (Q x)) as [Hq|Hq]; try done;
    exfalso; apply (Hpq x) in Hp || apply (Hpq x) in Hq; try done; left.
Qed.

(** ** Strings *)


Lemma length_app (a b : string) :
  String.length (a +:+ b) = (String.length a + String.length b)%nat.
Proof. induction a as [|x a IH]; simpl; [reflexivity | now rewrite IH]. Qed.




(** ** Assignments and date shifts on one element *)

Lemma assigned_value (elem elem' : DataElement) (s : string) :
  assigned elem s = Value elem' →
  conversion elem = None ∧
  ∃ v, convert_value (VR elem) s = Value v ∧
       elem' = {| VR := VR elem; value := v; conversion := None |}.
Proof.
  unfold assigned. destruct (conversion elem); [done |].
  destruct (convert_value (VR elem) s) as [v|e]; [| done].
  intros [= <-]. eauto.
Qed.

Lemma assigned_VR (elem elem' : DataElement) (s : string) :
  assigned elem s = Value elem' → VR elem' = VR elem.
Proof. intros (_ & v & _ & ->)%assigned_value. reflexivity. Qed.

Lemma assigned_raise (elem : DataElement) (s err : string) :
  assigned elem s = Raise err →
  conversion elem = Some err ∨
  (conversion elem = None ∧ convert_value (VR elem) s = Raise err).
Proof.
  unfold assigned. destruct (conversion elem) as [e|].
  - intros [= ->]. now left.
  - destruct (convert_value (VR elem) s); [done |]. intros [= ->]. now right.
Qed.

Lemma shift_elem_VR (elem : DataElement) : VR (shift_elem elem) = VR elem.
Proof. unfold shift_elem. now destruct (shifted_value elem). Qed.


(** ** Datasets that only lose elements or change values *)

Lemma keeps_elements_refl (ds : Dataset) : keeps_elements ds ds.
Proof. intros t e' He. eauto. Qed.

Lemma keeps_elements_trans (a b c : Dataset) :
  keeps_elements a b → keeps_elements b c → keeps_elements a c.
Proof.
  intros Hab Hbc t e'' He''.
  destruct (Hbc t e'' He'') as (e' & He' & Hvr').
  destruct (Hab t e' He') as (e & He & Hvr).
  exists e. split; [done | congruence].
Qed.

Lemma keeps_elements_size (a b : Dataset) : keeps_elements a b → (size b ≤ size a)%nat.
Proof.
  intros Hkeep. rewrite <- !size_dom. apply subseteq_size.
  intros t [e' He']%elem_of_dom. destruct (Hkeep t e' He') as (e & He & _).
  apply elem_of_dom. eauto.
Qed.

Lemma keeps_elements_none (a b : Dataset) (t : N) :
  keeps_elements a b → a !! t = None → b !! t = None.
Proof.
  intros Hkeep Hnone. destruct (b !! t) as [e'|] eqn:He'; [| done].
  destruct (Hkeep t e' He') as (e & He & _). congruence.
Qed.

Lemma within_refl (T : N → Prop) (ds : Dataset) : within T ds ds.
Proof. split; [apply keeps_elements_refl | done]. Qed.

Lemma within_trans (T : N → Prop) (a b c : Dataset) :
  within T a b → within T b c → within T a c.
Proof.
  intros [Kab Fab] [Kbc Fbc]. split; [now apply keeps_elements_trans with b |].
  intros t Ht. now rewrite Fbc, Fab.
Qed.

Lemma within_weaken (T T' : N → Prop) (a b : Dataset) :
  (∀ t, T t → T' t) → within T a b → within T' a b.
Proof. intros Hsub [K F]. split; [done |]. intros t Ht. apply F. auto. Qed.

Lemma within_insert (T : N → Prop) (ds : Dataset) (t : N) (e e' : DataElement) :
  ds !! t = Some e → VR e' = VR e → T t → within T ds (<[t := e']> ds).
Proof.
  intros He Hvr Ht. split.
  - intros t' e'' He''. destruct (decide (t' = t)) as [->|Hne].
    + rewrite lookup_insert_eq in He''. injection He'' as <-. eauto.
    + rewrite lookup_insert_ne in He'' by done. eauto.
  - intros t' Ht'. rewrite lookup_insert_ne; [done | congruence].
Qed.

Lemma within_delete (T : N → Prop) (ds : Dataset) (t : N) :
  T t → within T ds (delete t ds).
Proof.
  intros Ht. split.
  - intros t' e' He'. destruct (decide (t' = t)) as [->|Hne].
    + now rewrite lookup_delete_eq in He'.
    + rewrite lookup_delete_ne in He' by done. eauto.
  - intros t' Ht'. rewrite lookup_delete_ne; [done | congruence].
Qed.

(** ** The default rule table *)

Lemma removed_tags_eq : removed_tags = tags_of (remove ANONYMIZATION_RULES).
Proof. reflexivity. Qed.

Lemma replace_keys_in_remove :
  Forall (λ kw, kw ∈ remove ANONYMIZATION_RULES) (replace ANONYMIZATION_RULES).*1.
Proof. by_computation. Qed.

Lemma date_shift_keys_in_remove :
  Forall (λ kw, kw ∈ remove ANONYMIZATION_RULES ∨ kw = "AcquisitionDate")
         (date_shift ANONYMIZATION_RULES).*1.
Proof. by_computation. Qed.

Lemma date_shift_tags_distinct : NoDup (tags_of (date_shift ANONYMIZATION_RULES).*1).
Proof. by_computation. Qed.

Lemma acquisition_date_kept :
  (acquisition_date ∉ removed_tags) ∧ is_private acquisition_date = false ∧
  acquisition_date ∈ tags_of (date_shift ANONYMIZATION_RULES).*1.
Proof. by_computation. Qed.

Lemma sop_instance_uid_kept :
  (sop_instance_uid ∉ removed_tags) ∧ is_private sop_instance_uid = false ∧
  (sop_instance_uid ∉ tags_of (date_shift ANONYMIZATION_RULES).*1) ∧
  sop_instance_uid ≠ acquisition_date.
Proof. by_computation. Qed.

Lemma uid_keywords :
  tag_for_keyword "SOPInstanceUID" = Some sop_instance_uid ∧
  (∃ t, tag_for_keyword "StudyInstanceUID" = Some t ∧ t ∈ removed_tags) ∧
  (∃ t, tag_for_keyword "SeriesInstanceUID" = Some t ∧ t ∈ removed_tags).
Proof.
  split_and!; [reflexivity | |]; eexists; (split; [reflexivity | by_computation]).
Qed.

Lemma removed_tag_of_keyword (kw : string) (t : N) :
  kw ∈ remove ANONYMIZATION_RULES → tag_for_keyword kw = Some t → t ∈ removed_tags.
Proof. intros Hkw Ht. rewrite removed_tags_eq. apply elem_of_tags_of. eauto. Qed.

Lemma replace_tags_removed (t : N) :
  t ∈ tags_of (replace ANONYMIZATION_RULES).*1 → t ∈ removed_tags.
Proof.
  intros (kw & Hkw & Ht)%elem_of_tags_of.
  pose proof replace_keys_in_remove as Hall. rewrite Forall_forall in Hall.
  eapply removed_tag_of_keyword; eauto.
Qed.

Lemma date_shift_tags_removed (t : N) :
  t ∈ tags_of (date_shift ANONYMIZATION_RULES).*1 →
  t ∈ removed_tags ∨ t = acquisition_date.
Proof.
  intros (kw & Hkw & Ht)%elem_of_tags_of.
  pose proof date_shift_keys_in_remove as Hall. rewrite Forall_forall in Hall.
  destruct (Hall kw Hkw) as [Hrm | ->].
  - left. eapply removed_tag_of_keyword; eauto.
  - right. vm_compute in Ht. now injection Ht as <-.
Qed.

(** C2 (as amended).  In the default rule table the replace mapping has
    six identifiers and each of them is also in the remove list: the two
    categories overlap in the whole of the replace category. *)
Theorem replace_category_within_remove :
  length (replace ANONYMIZATION_RULES) = 6%nat ∧
  Forall (λ kw, kw ∈ remove ANONYMIZATION_RULES) (replace ANONYMIZATION_RULES).*1.
Proof. split; [reflexivity | by_computation]. Qed.

(** C2 as stated fails: "PatientName" is in the remove list and in the
    replace mapping. *)
Lemma remove_replace_not_disjoint :
  ¬ (∀ kw, kw ∈ remove ANONYMIZATION_RULES → kw ∉ (replace ANONYMIZATION_RULES).*1).
Proof.
  intros Hdisj. apply (Hdisj "PatientName"); by_computation.
Qed.

(** ** The primitive statements on a dataset *)

Lemma contains_dataset (kw : string) (ds : Dataset) (w : W) :
  contains kw (DatasetObj ds, w) =
  (Value (match tag_for_keyword kw with
          | Some tag => bool_decide (is_Some (ds !! tag))
          | None => false
          end), (DatasetObj ds, w)).
Proof. reflexivity. Qed.

Lemma contains_absent (kw : string) (ds : Dataset) (w : W) :
  tag_for_keyword kw ≫= (ds !!.) = None →
  contains kw (DatasetObj ds, w) = (Value false, (DatasetObj ds, w)).
Proof.
  intros Hnone. rewrite contains_dataset.
  destruct (tag_for_keyword kw) as [tag|]; [| done].
  change (Some tag ≫= (ds !!.)) with (ds !! tag) in Hnone.
  now rewrite Hnone, bool_decide_false by (intros [? ?]; done).
Qed.

Lemma contains_present (kw : string) (tag : N) (elem : DataElement)
    (ds : Dataset) (w : W) :
  tag_for_keyword kw = Some tag → ds !! tag = Some elem →
  contains kw (DatasetObj ds, w) = (Value true, (DatasetObj ds, w)).
Proof.
  intros Htag Hel. now rewrite contains_dataset, Htag, bool_decide_true by eauto.
Qed.

Lemma getitem_present (kw : string) (tag : N) (elem : DataElement)
    (ds : Dataset) (w : W) :
  tag_for_keyword kw = Some tag → ds !! tag = Some elem →
  getitem kw (DatasetObj ds, w) =
  (match conversion elem with
   | None => Value elem
   | Some err => Raise err
   end, (DatasetObj ds, w)).
Proof.
  intros Htag Hel. unfold getitem. rewrite Htag.
  change (Some tag ≫= (ds !!.)) with (ds !! tag). rewrite Hel.
  now destruct (conversion elem).
Qed.

Lemma setitem_value_present (kw : string) (tag : N) (elem : DataElement)
    (ds : Dataset) (w : W) (s : string) :
  tag_for_keyword kw = Some tag → ds !! tag = Some elem →
  setitem_value kw s (DatasetObj ds, w) =
  match assigned elem s with
  | Value elem' => (Value (), (DatasetObj (<[tag := elem']> ds), w))
  | Raise err => (Raise err, (DatasetObj ds, w))
  end.
Proof.
  intros Htag Hel. unfold setitem_value, assigned. rewrite Htag, Hel.
  destruct (conversion elem); [done |].
  now destruct (convert_value (VR elem) s).
Qed.

(** ** The removal loop, lines 186-189 *)

Lemma remove_loop (kws : list string) (ds : Dataset) (w : W) (c : Z) :
  ∃ ds' c',
    for_each kws remove_tag c (DatasetObj ds, w) = (Value c', (DatasetObj ds', w)) ∧
    (∀ t, ds' !! t = if bool_decide (t ∈ tags_of kws) then None else ds !! t) ∧
    c' + Z.of_nat (size ds') = c + Z.of_nat (size ds) ∧
    c ≤ c'.
Proof.
  revert ds c. induction kws as [|kw kws IH]; intros ds c.
  - exists ds, c. split_and!; [done | | done | lia]. intros t.
    rewrite bool_decide_false; [done | apply not_elem_of_nil].
  - cbn [for_each]. unfold bind at 1. unfold remove_tag at 1. unfold bind at 1.
    rewrite contains_dataset. rewrite tags_of_cons.
    destruct (tag_for_keyword kw) as [tag|] eqn:Htag.
    + destruct (ds !! tag) as [elem|] eqn:Hel.
      * rewrite bool_decide_true by eauto.
        unfold bind at 1, delitem. rewrite Htag. unfold delitem_tag. rewrite Hel.
        unfold ret at 1.
        destruct (IH (delete tag ds) (c + 1)) as (ds' & c' & -> & Hlk & Hsz & Hle).
        exists ds', c'. split_and!; [done | | | lia].
        -- intros t. rewrite Hlk. destruct (decide (t = tag)) as [->|Hne].
           ++ rewrite lookup_delete_eq. rewrite (bool_decide_true (_ ∈ _ :: _)) by left.
              now case_bool_decide.
           ++ rewrite lookup_delete_ne by done.
              now rewrite decide_cons_ne.
        -- rewrite Hsz, map_size_delete_Some by eauto.
           assert (size ds ≠ 0%nat) by (apply map_size_ne_0_lookup_2 with tag; eauto).
           lia.
      * rewrite bool_decide_false by (intros [? ?]; congruence).
        unfold ret at 1.
        destruct (IH ds c) as (ds' & c' & -> & Hlk & Hsz & Hle).
        exists ds', c'. split_and!; [done | | lia | lia].
        intros t. rewrite Hlk. destruct (decide (t = tag)) as [->|Hne].
        -- rewrite (bool_decide_true (_ ∈ _ :: _)) by left.
           rewrite Hel. now case_bool_decide.
        -- now rewrite decide_cons_ne.
    + unfold ret at 1. apply IH.
Qed.

(** ** The replacement loop, lines 192-195 *)

Lemma replace_tag_absent (kw lit : string) (ds : Dataset) (w : W) (c : Z) :
  tag_for_keyword kw ≫= (ds !!.) = None →
  replace_tag (kw, lit) c (DatasetObj ds, w) = (Value c, (DatasetObj ds, w)).
Proof.
  intros Hnone. unfold replace_tag, bind at 1. now rewrite contains_absent.
Qed.

(** The item access of line 194 is not guarded: when it raises, or the
    setter does, the loop ends there. *)
Lemma replace_tag_present (kw lit : string) (tag : N) (elem : DataElement)
    (ds : Dataset) (w : W) (c : Z) :
  tag_for_keyword kw = Some tag → ds !! tag = Some elem →
  replace_tag (kw, lit) c (DatasetObj ds, w) =
  match assigned elem lit with
  | Value elem' => (Value (c + 1), (DatasetObj (<[tag := elem']> ds), w))
  | Raise err => (Raise err, (DatasetObj ds, w))
  end.
Proof.
  intros Htag Hel. unfold replace_tag, bind at 1.
  rewrite (contains_present kw tag elem) by done. unfold bind at 1.
  rewrite (setitem_value_present kw tag elem) by done.
  now destruct (assigned elem lit).
Qed.

Lemma replace_loop (items : list (string * string)) (ds : Dataset) (w : W) (c : Z) :
  ∃ res ds',
    for_each items replace_tag c (DatasetObj ds, w) = (res, (DatasetObj ds', w)) ∧
    within (λ t, t ∈ tags_of items.*1) ds ds' ∧
    size ds' = size ds ∧
    match res with Value c' => c ≤ c' | Raise _ => True end.
Proof.
  revert ds c. induction items as [|[kw lit] items IH]; intros ds c.
  - exists (Value c), ds. split_and!; [done | apply within_refl | done | cbn; lia].
  - cbn [for_each]. unfold bind at 1. cbn [fmap list_fmap fst]. rewrite tags_of_cons.
    destruct (tag_for_keyword kw ≫= (ds !!.)) as [elem|] eqn:Hget.
    + destruct (tag_for_keyword kw) as [tag|] eqn:Htag; [| done].
      change (Some tag ≫= (ds !!.)) with (ds !! tag) in Hget.
      rewrite (replace_tag_present kw lit tag elem) by done.
      destruct (assigned elem lit) as [elem'|err] eqn:Hassign.
      * destruct (IH (<[tag := elem']> ds) (c + 1)) as (res & ds' & -> & Hin & Hsz & Hle).
        exists res, ds'. split_and!; [done | | |].
        -- apply within_trans with (<[tag := elem']> ds).
           ++ apply within_insert with elem; [done | | left].
              now apply assigned_VR with lit.
           ++ eapply within_weaken; [| exact Hin]. intros t Ht. now right.
        -- rewrite Hsz. apply map_size_insert_Some. eauto.
        -- destruct res; [lia | done].
      * exists (Raise err), ds. split_and!; [done | apply within_refl | done | done].
    + rewrite replace_tag_absent by done.
      destruct (IH ds c) as (res & ds' & -> & Hin & Hsz & Hle).
      exists res, ds'. split_and!; [done | | done | done].
      eapply within_weaken; [| exact Hin]. intros t Ht.
      destruct (tag_for_keyword kw); [now right | done].
Qed.

(** Nothing to replace: the loop leaves the dataset and the count. *)
Lemma replace_loop_absent (items : list (string * string)) (ds : Dataset) (w : W) (c : Z) :
  (∀ t, t ∈ tags_of items.*1 → ds !! t = None) →
  for_each items replace_tag c (DatasetObj ds, w) = (Value c, (DatasetObj ds, w)).
Proof.
  induction items as [|[kw lit] items IH]; intros Habs; [done |].
  cbn [for_each]. unfold bind at 1. cbn [fmap list_fmap fst] in Habs.
  rewrite tags_of_cons in Habs.
  rewrite replace_tag_absent.
  - apply IH. intros t Ht. apply Habs. destruct (tag_for_keyword kw); [now right | done].
  - destruct (tag_for_keyword kw) as [tag|]; [| done]. apply Habs. left.
Qed.

(** When the loop returns, an element at a tag that the mapping gives
    one literal has been converted and holds what the setter made of that
    literal. *)
Lemma replace_loop_value (items : list (string * string)) (ds ds' : Dataset)
    (w w' : W) (c c' : Z) (t : N) (lit : string) (elem : DataElement) :
  for_each items replace_tag c (DatasetObj ds, w) = (Value c', (DatasetObj ds', w')) →
  t ∈ tags_of items.*1 →
  (∀ kw' lit', (kw', lit') ∈ items → tag_for_keyword kw' = Some t → lit' = lit) →
  ds !! t = Some elem →
  conversion elem = None ∧
  ∃ v, convert_value (VR elem) lit = Value v ∧
       ds' !! t = Some {| VR := VR elem; value := v; conversion := None |}.
Proof.
  revert ds c elem. induction items as [|[kw0 lit0] items IH]; intros ds c elem Hrun Hin Hsame Hel.
  - now apply elem_of_nil in Hin.
  - cbn [for_each] in Hrun. unfold bind at 1 in Hrun.
    cbn [fmap list_fmap fst] in Hin. rewrite tags_of_cons in Hin.
    assert (∀ kw' lit', (kw', lit') ∈ items → tag_for_keyword kw' = Some t → lit' = lit)
      as Hsame' by (intros kw' lit' Hi; apply Hsame; now right).
    destruct (tag_for_keyword kw0 ≫= (ds !!.)) as [elem0|] eqn:Hget.
    + destruct (tag_for_keyword kw0) as [tag|] eqn:Htag; [| done].
      change (Some tag ≫= (ds !!.)) with (ds !! tag) in Hget.
      rewrite (replace_tag_present kw0 lit0 tag elem0) in Hrun by done.
      destruct (assigned elem0 lit0) as [elem'|err] eqn:Hassign; [| done].
      destruct (decide (t = tag)) as [->|Hne].
      * assert (elem0 = elem) as -> by congruence.
        assert (lit0 = lit) as -> by (apply (Hsame kw0); [left | done]).
        apply assigned_value in Hassign as (Hconv & v & Hv & ->).
        split; [done |]. exists v. split; [done |].
        destruct (decide (tag ∈ tags_of items.*1)) as [Hlater|Hlater].
        -- destruct (IH _ _ _ Hrun Hlater Hsame' (lookup_insert_eq _ _ _))
             as (_ & v' & Hv' & ->).
           cbn in Hv'. rewrite Hv in Hv'. now injection Hv' as <-.
        -- destruct (replace_loop items
                       (<[tag := {| VR := VR elem; value := v; conversion := None |}]> ds)
                       w (c + 1)) as (res & ds2 & E & [_ Hframe] & _).
           rewrite E in Hrun. injection Hrun as _ <- _.
           now rewrite Hframe, lookup_insert_eq.
      * apply elem_of_cons in Hin as [? | Hin]; [done |].
        apply (IH _ _ _ Hrun Hin Hsame'). now rewrite lookup_insert_ne.
    + rewrite replace_tag_absent in Hrun by done.
      apply (IH _ _ _ Hrun); [| done | done].
      destruct (tag_for_keyword kw0) as [tag|] eqn:Htag; [| done].
      apply elem_of_cons in Hin as [-> | Hin]; [| done].
      change (Some tag ≫= (ds !!.)) with (ds !! tag) in Hget. congruence.
Qed.

(** ** The date-shift loop, lines 198-207 *)

Lemma shift_date_present (kw : string) (tag : N) (elem : DataElement)
    (ds : Dataset) (w : W) (c : Z) :
  tag_for_keyword kw = Some tag → ds !! tag = Some elem →
  shift_date kw c (DatasetObj ds, w) =
  (Value (if shiftable elem then c + 1 else c),
   (DatasetObj (<[tag := shift_elem elem]> ds), w)).
Proof.
  intros Htag Hel. unfold shift_date. unfold bind at 1.
  rewrite (contains_present kw tag elem) by done.
  unfold try_except, getitem_value. unfold bind at 1. unfold bind at 1.
  rewrite (getitem_present kw tag elem) by done.
  unfold shiftable, shift_elem, shifted_value.
  destruct (conversion elem) as [err|] eqn:Hconv.
  { unfold ret. rewrite bool_decide_false by (intros [? ?]; done). now rewrite insert_id. }
  unfold ret at 1. unfold bind at 1, lift.
  destruct (py_str (value elem)) as [s|e].
  2:{ unfold ret. rewrite bool_decide_false by (intros [? ?]; done). now rewrite insert_id. }
  case_bool_decide as Hlen.
  - unfold bind at 1. rewrite (setitem_value_present kw tag elem) by done.
    unfold assigned. rewrite Hconv.
    destruct (convert_value (VR elem) _) as [v|e].
    + unfold ret. now rewrite bool_decide_true by eauto.
    + unfold ret. rewrite bool_decide_false by (intros [? ?]; done). now rewrite insert_id.
  - unfold ret. rewrite bool_decide_false by (intros [? ?]; done). now rewrite insert_id.
Qed.

Lemma shift_date_absent (kw : string) (ds : Dataset) (w : W) (c : Z) :
  tag_for_keyword kw ≫= (ds !!.) = None →
  shift_date kw c (DatasetObj ds, w) = (Value c, (DatasetObj ds, w)).
Proof.
  intros Hnone. unfold shift_date. unfold bind at 1. now rewrite contains_absent.
Qed.

(** The loop never raises, whatever the targets. *)
Lemma shift_loop_within (kws : list string) (ds : Dataset) (w : W) (c : Z) :
  ∃ ds' c',
    for_each kws shift_date c (DatasetObj ds, w) = (Value c', (DatasetObj ds', w)) ∧
    within (λ t, t ∈ tags_of kws) ds ds' ∧
    size ds' = size ds ∧
    c ≤ c' ≤ c + Z.of_nat (length kws).
Proof.
  revert ds c. induction kws as [|kw kws IH]; intros ds c.
  - exists ds, c. split_and!; [done | apply within_refl | done | lia | cbn; lia].
  - cbn [for_each]. unfold bind at 1. rewrite tags_of_cons.
    destruct (tag_for_keyword kw ≫= (ds !!.)) as [elem|] eqn:Hget.
    + destruct (tag_for_keyword kw) as [tag|] eqn:Htag; [| done].
      change (Some tag ≫= (ds !!.)) with (ds !! tag) in Hget.
      rewrite (shift_date_present kw tag elem) by done.
      destruct (IH (<[tag := shift_elem elem]> ds) (if shiftable elem then c + 1 else c))
        as (ds' & c' & -> & Hin & Hsz & Hle).
      exists ds', c'. split_and!; [done | | | |].
      * apply within_trans with (<[tag := shift_elem elem]> ds).
        -- apply within_insert with elem; [done | apply shift_elem_VR | left].
        -- eapply within_weaken; [| exact Hin]. intros t Ht. now right.
      * rewrite Hsz. apply map_size_insert_Some. eauto.
      * destruct (shiftable elem); lia.
      * cbn [length]. destruct (shiftable elem); lia.
    + rewrite shift_date_absent by done.
      destruct (IH ds c) as (ds' & c' & -> & Hin & Hsz & Hle).
      exists ds', c'. split_and!; [done | | done | lia | cbn [length]; lia].
      eapply within_weaken; [| exact Hin]. intros t Ht.
      destruct (tag_for_keyword kw); [now right | done].
Qed.

(** The loop in full, for targets with distinct tags. *)
Lemma shift_loop (kws : list string) (ds : Dataset) (w : W) (c : Z) :
  NoDup (tags_of kws) →
  ∃ ds' c',
    for_each kws shift_date c (DatasetObj ds, w) = (Value c', (DatasetObj ds', w)) ∧
    (∀ t, ds' !! t =
          if bool_decide (t ∈ tags_of kws) then shift_elem <$> ds !! t else ds !! t) ∧
    size ds' = size ds ∧
    c' = c + Z.of_nat (length (filter (λ kw, shift_applies ds kw = true) kws)).
Proof.
  revert ds c. induction kws as [|kw kws IH]; intros ds c Hnd.
  - exists ds, c. split_and!; try done. cbn. lia.
  - cbn [for_each]. unfold bind at 1. rewrite tags_of_cons in Hnd |- *. rewrite filter_cons.
    destruct (tag_for_keyword kw ≫= (ds !!.)) as [elem|] eqn:Hget.
    + destruct (tag_for_keyword kw) as [tag|] eqn:Htag; [| done].
      change (Some tag ≫= (ds !!.)) with (ds !! tag) in Hget.
      apply NoDup_cons in Hnd as [Hfresh Hnd].
      rewrite (shift_date_present kw tag elem) by done.
      destruct (IH (<[tag := shift_elem elem]> ds) (if shiftable elem then c + 1 else c) Hnd)
        as (ds' & c' & -> & Hlk & Hsz & Hc).
      exists ds', c'. split_and!; [done | | |].
      * intros t. rewrite Hlk. destruct (decide (t = tag)) as [->|Hne].
        -- rewrite decide_cons_eq, (bool_decide_false (tag ∈ tags_of kws)) by done.
           now rewrite lookup_insert_eq, Hget.
        -- now rewrite decide_cons_ne, lookup_insert_ne.
      * rewrite Hsz. apply map_size_insert_Some. eauto.
      * rewrite Hc.
        rewrite (filter_agree _ (λ kw, shift_applies ds kw = true)).
        2:{ intros k Hk. unfold shift_applies.
            destruct (tag_for_keyword k) as [t|] eqn:Hkt; [| done].
            change (Some t ≫= (<[tag := shift_elem elem]> ds !!.))
              with (<[tag := shift_elem elem]> ds !! t).
            change (Some t ≫= (ds !!.)) with (ds !! t).
            rewrite lookup_insert_ne; [done |].
            intros <-. apply Hfresh, elem_of_tags_of. eauto. }
        assert (shift_applies ds kw = shiftable elem) as ->.
        { unfold shift_applies. rewrite Htag.
          change (Some tag ≫= (ds !!.)) with (ds !! tag). now rewrite Hget. }
        destruct (shiftable elem); cbn.
        -- rewrite decide_True by done. cbn. lia.
        -- rewrite decide_False by done. lia.
    + rewrite shift_date_absent by done.
      assert (NoDup (tags_of kws)) as Hnd'.
      { destruct (tag_for_keyword kw); [now apply NoDup_cons in Hnd as [_ ?] | done]. }
      destruct (IH ds c Hnd') as (ds' & c' & -> & Hlk & Hsz & Hc).
      exists ds', c'. split_and!; [done | | done |].
      * intros t. rewrite Hlk. destruct (tag_for_keyword kw) as [tag|]; [| done].
        change (Some tag ≫= (ds !!.)) with (ds !! tag) in Hget.
        destruct (decide (t = tag)) as [->|Hne].
        -- rewrite decide_cons_eq, Hget. now case_bool_decide.
        -- now rewrite decide_cons_ne.
      * rewrite Hc.
        assert (shift_applies ds kw = false) as ->
          by (unfold shift_applies; now rewrite Hget).
        now rewrite decide_False by done.
Qed.

(** ** The purge of private tags, lines 210-213 *)

Lemma delete_loop (tags : list N) (ds : Dataset) (w : W) (c : Z) :
  NoDup tags → (∀ t, t ∈ tags → is_Some (ds !! t)) →
  ∃ ds',
    for_each tags (λ tag count, bind (delitem_tag tag) (λ _, ret (count + 1))) c
      (DatasetObj ds, w)
    = (Value (c + Z.of_nat (length tags)), (DatasetObj ds', w)) ∧
    (∀ t, ds' !! t = if bool_decide (t ∈ tags) then None else ds !! t) ∧
    (size ds' + length tags = size ds)%nat.
Proof.
  revert ds c. induction tags as [|tag tags IH]; intros ds c Hnd Hin.
  - exists ds. cbn. unfold ret. split_and!; [f_equal; f_equal; lia | | lia].
    intros t. rewrite bool_decide_false; [done | apply not_elem_of_nil].
  - apply NoDup_cons in Hnd as [Hfresh Hnd].
    destruct (Hin tag) as [elem Hel]; [left |].
    cbn [for_each]. unfold bind at 1. unfold bind at 1. unfold delitem_tag at 1.
    rewrite Hel. unfold ret at 1.
    destruct (IH (delete tag ds) (c + 1) Hnd) as (ds' & -> & Hlk & Hsz).
    { intros t Ht. rewrite lookup_delete_ne; [apply Hin; now right | congruence]. }
    exists ds'. split_and!.
    + f_equal. f_equal. cbn [length]. lia.
    + intros t. rewrite Hlk. destruct (decide (t = tag)) as [->|Hne].
      * rewrite decide_cons_eq, lookup_delete_eq. now case_bool_decide.
      * now rewrite decide_cons_ne, lookup_delete_ne.
    + rewrite map_size_delete_Some in Hsz by eauto. cbn [length].
      assert (size ds ≠ 0%nat) by (apply map_size_ne_0_lookup_2 with tag; eauto).
      lia.
Qed.

Lemma private_purge (ds : Dataset) (w : W) (c : Z) :
  ∃ ds' c',
    remove_private_tags c (DatasetObj ds, w) = (Value c', (DatasetObj ds', w)) ∧
    (∀ t, ds' !! t = if is_private t then None else ds !! t) ∧
    c' + Z.of_nat (size ds') = c + Z.of_nat (size ds) ∧
    c ≤ c'.
Proof.
  unfold remove_private_tags, bind at 1, keys.
  set (tags := filter (λ tag, is_private tag = true) (map_to_list ds).*1).
  destruct (delete_loop tags ds w c) as (ds' & -> & Hlk & Hsz).
  { apply NoDup_filter, NoDup_fst_map_to_list. }
  { intros t [_ Ht]%list_elem_of_filter.
    apply list_elem_of_fmap in Ht as ([t' elem] & -> & Ht).
    apply elem_of_map_to_list in Ht. eauto. }
  exists ds', (c + Z.of_nat (length tags)). split_and!; [done | | lia | lia].
  intros t. rewrite Hlk. subst tags.
  destruct (is_private t) eqn:Hp.
  - case_bool_decide as Hin; [done |].
    destruct (ds !! t) as [elem|] eqn:Hel; [| done].
    exfalso. apply Hin, list_elem_of_filter. split; [done |].
    apply list_elem_of_fmap. exists (t, elem). split; [done |].
    now apply elem_of_map_to_list.
  - rewrite bool_decide_false; [done |].
    intros [Hp' _]%list_elem_of_filter. congruence.
Qed.

Lemma private_purge_within (ds ds' : Dataset) :
  (∀ t, ds' !! t = if is_private t then None else ds !! t) →
  within (λ t, is_private t = true) ds ds'.
Proof.
  intros Hlk. split.
  - intros t e' He'. rewrite Hlk in He'. destruct (is_private t); [done | eauto].
  - intros t Ht. rewrite Hlk. now destruct (is_private t).
Qed.

(** ** A fresh UID for a tag, lines 216-221 *)

(** The UID is drawn before the assignment: when the item access or the
    setter raises, the world has moved on and the dataset has not. *)
Lemma regenerate_present (kw : string) (tag : N) (elem : DataElement)
    (ds : Dataset) (w : W) :
  tag_for_keyword kw = Some tag → ds !! tag = Some elem →
  regenerate kw (DatasetObj ds, w) =
  match assigned elem (generate_uid w).1 with
  | Value elem' => (Value (), (DatasetObj (<[tag := elem']> ds), (generate_uid w).2))
  | Raise err => (Raise err, (DatasetObj ds, (generate_uid w).2))
  end.
Proof.
  intros Htag Hel. unfold regenerate, bind at 1.
  rewrite (contains_present kw tag elem) by done.
  unfold bind, fresh_uid. destruct (generate_uid w) as [uid w'].
  unfold setattr. rewrite Htag, Hel.
  rewrite (setitem_value_present kw tag elem) by done. cbn [fst snd].
  now destruct (assigned elem uid).
Qed.

Lemma regenerate_absent (kw : string) (ds : Dataset) (w : W) :
  tag_for_keyword kw ≫= (ds !!.) = None →
  regenerate kw (DatasetObj ds, w) = (Value (), (DatasetObj ds, w)).
Proof.
  intros Hnone. unfold regenerate, bind at 1. now rewrite contains_absent.
Qed.

Lemma regenerate_within (kw : string) (ds : Dataset) (w : W) :
  ∃ res ds' w',
    regenerate kw (DatasetObj ds, w) = (res, (DatasetObj ds', w')) ∧
    within (λ t, tag_for_keyword kw = Some t) ds ds' ∧
    size ds' = size ds.
Proof.
  destruct (tag_for_keyword kw ≫= (ds !!.)) as [elem|] eqn:Hget.
  - destruct (tag_for_keyword kw) as [tag|] eqn:Htag; [| done].
    change (Some tag ≫= (ds !!.)) with (ds !! tag) in Hget.
    rewrite (regenerate_present kw tag elem) by done.
    destruct (assigned elem _) as [elem'|err] eqn:Hassign.
    + eexists _, _, _. split_and!; [done | |].
      * apply within_insert with elem; [done | | done].
        now apply assigned_VR in Hassign.
      * apply map_size_insert_Some. eauto.
    + eexists _, _, _. split_and!; [done | apply within_refl | done].
  - rewrite regenerate_absent by done.
    eexists _, _, _. split_and!; [done | apply within_refl | done].
Qed.

(** The three regenerations that end the body, from the purge's result. *)
Lemma regenerate_uids (c4 : Z) (ds : Dataset) (w : W) :
  ∃ res ds' w',
    bind (regenerate "SOPInstanceUID") (λ _,
      bind (regenerate "StudyInstanceUID") (λ _,
        bind (regenerate "SeriesInstanceUID") (λ _, ret c4))) (DatasetObj ds, w)
    = (res, (DatasetObj ds', w')) ∧
    within (λ t, t ∈ uid_tags) ds ds' ∧
    size ds' = size ds ∧
    match res with Value c => c = c4 | Raise _ => True end.
Proof.
  assert (∀ kw a b, kw ∈ ["SOPInstanceUID"; "StudyInstanceUID"; "SeriesInstanceUID"] →
            within (λ t, tag_for_keyword kw = Some t) a b →
            within (λ t, t ∈ uid_tags) a b) as Hweak.
  { intros kw a b Hkw. apply within_weaken. intros t Ht.
    apply elem_of_tags_of. eauto. }
  destruct (regenerate_within "SOPInstanceUID" ds w) as (r5 & ds5 & w5 & E5 & I5 & S5).
  apply Hweak in I5; [| repeat constructor].
  unfold bind at 1. rewrite E5. destruct r5 as [[]|e].
  2:{ eexists _, _, _. split_and!; done. }
  destruct (regenerate_within "StudyInstanceUID" ds5 w5) as (r6 & ds6 & w6 & E6 & I6 & S6).
  apply Hweak in I6; [| repeat constructor].
  unfold bind at 1. rewrite E6. destruct r6 as [[]|e].
  2:{ eexists _, _, _. split_and!; [done | | congruence | done].
      now apply within_trans with ds5. }
  destruct (regenerate_within "SeriesInstanceUID" ds6 w6) as (r7 & ds7 & w7 & E7 & I7 & S7).
  apply Hweak in I7; [| repeat constructor].
  unfold bind at 1. rewrite E7.
  assert (within (λ t, t ∈ uid_tags) ds ds7) as I
    by (apply within_trans with ds6; [now apply within_trans with ds5 | done]).
  destruct r7 as [[]|e]; eexists _, _, _; (split_and!; [done | done | congruence | done]).
Qed.

(** ** The phases in sequence *)

(** The ways through the body on a dataset: the replacement loop raises,
    or the body gets to the three regenerations, which may raise. *)
Lemma anonymize_outcome (rules : Rules) (ds : Dataset) (w : W) :
  ∃ (c1 : Z) (ds1 : Dataset),
    (∀ t, ds1 !! t = if bool_decide (t ∈ tags_of (remove rules)) then None else ds !! t) ∧
    c1 + Z.of_nat (size ds1) = Z.of_nat (size ds) ∧ 0 ≤ c1 ∧
    ((∃ (e : string) (ds2 : Dataset),
        for_each (replace rules) replace_tag c1 (DatasetObj ds1, w)
          = (Raise e, (DatasetObj ds2, w)) ∧
        anonymize_dicom (DatasetObj ds) (Some rules) w
          = (EngineFailed e, DatasetObj ds2, w) ∧
        within (λ t, t ∈ tags_of (replace rules).*1) ds1 ds2)
     ∨
     (∃ (c2 c3 c4 : Z) (ds2 ds3 ds4 ds' : Dataset) (res : exc Z) (w' : W),
        for_each (replace rules) replace_tag c1 (DatasetObj ds1, w)
          = (Value c2, (DatasetObj ds2, w)) ∧
        within (λ t, t ∈ tags_of (replace rules).*1) ds1 ds2 ∧
        within (λ t, t ∈ tags_of (date_shift rules).*1) ds2 ds3 ∧
        (∀ t, ds4 !! t = if is_private t then None else ds3 !! t) ∧
        within (λ t, t ∈ uid_tags) ds4 ds' ∧
        size ds' = size ds4 ∧
        c1 ≤ c4 ∧
        anonymize_dicom (DatasetObj ds) (Some rules) w
          = (match res with Value _ => EngineOk c4 | Raise e => EngineFailed e end,
             DatasetObj ds', w'))).
Proof.
  destruct (remove_loop (remove rules) ds w 0) as (ds1 & c1 & E1 & L1 & S1 & Hle1).
  exists c1, ds1. split_and!; [done | lia | done |].
  remember (anonymize_dicom (DatasetObj ds) (Some rules) w) as out eqn:E.
  unfold anonymize_dicom in E.
  change (default ANONYMIZATION_RULES (Some rules)) with rules in E.
  unfold anonymize_body in E. unfold bind at 1 in E. rewrite E1 in E.
  destruct (replace_loop (replace rules) ds1 w c1) as (r2 & ds2 & E2 & I2 & S2 & Hle2).
  unfold bind at 1 in E. rewrite E2 in E. destruct r2 as [c2|e].
  2:{ left. exists e, ds2. now subst out. }
  right.
  destruct (shift_loop_within (date_shift rules).*1 ds2 w c2)
    as (ds3 & c3 & E3 & I3 & S3 & Hle3).
  unfold bind at 1 in E. rewrite E3 in E.
  destruct (private_purge ds3 w c3) as (ds4 & c4 & E4 & L4 & S4 & Hle4).
  unfold bind at 1 in E. rewrite E4 in E.
  destruct (regenerate_uids c4 ds4 w) as (res & ds' & w' & E5 & I5 & S5 & Hres).
  rewrite E5 in E.
  exists c2, c3, c4, ds2, ds3, ds4, ds', res, w'.
  split_and!; try done; [lia |].
  subst out. destruct res as [c|e]; [now subst c | done].
Qed.

(** On a dataset the engine leaves a dataset, whatever it returns. *)
Lemma anonymize_dataset (rules : option Rules) (ds : Dataset) (w : W) :
  ∃ r ds' w', anonymize_dicom (DatasetObj ds) rules w = (r, DatasetObj ds', w').
Proof.
  assert (∀ rs, ∃ r ds' w',
    anonymize_dicom (DatasetObj ds) (Some rs) w = (r, DatasetObj ds', w')) as Hsome.
  { intros rs. destruct (anonymize_outcome rs ds w) as (c1 & ds1 & _ & _ & _ & Hcase).
    destruct Hcase as [(e & ds2 & _ & E & _)
                      | (c2 & c3 & c4 & ds2 & ds3 & ds4 & ds' & res & w' & Hrest)].
    - eauto.
    - destruct Hrest as (_ & _ & _ & _ & _ & _ & _ & E). eauto. }
  destruct rules as [rs|]; [apply Hsome | apply (Hsome ANONYMIZATION_RULES)].
Qed.

(** ** An object that is not a dataset *)

Lemma for_each_corrupt {A} (xs : list A) (body : A → Z → M Z)
    (len : option nat) (err : string) (w : W) (c : Z) :
  (∀ x c, body x c (Corrupt len err, w) = (Raise err, (Corrupt len err, w))) →
  for_each xs body c (Corrupt len err, w) =
  (match xs with [] => Value c | _ => Raise err end, (Corrupt len err, w)).
Proof.
  intros Hbody. destruct xs as [|x xs]; [done |].
  cbn [for_each]. unfold bind. now rewrite Hbody.
Qed.

Lemma anonymize_corrupt (rules : option Rules) (len : option nat) (err : string) (w : W) :
  anonymize_dicom (Corrupt len err) rules w = (EngineFailed err, Corrupt len err, w).
Proof.
  unfold anonymize_dicom, anonymize_body.
  unfold bind at 1. rewrite for_each_corrupt by done.
  destruct (remove _); [| done].
  unfold bind at 1. rewrite for_each_corrupt by (now intros []).
  destruct (replace _); [| done].
  unfold bind at 1. rewrite for_each_corrupt by done.
  destruct (_.*1); done.
Qed.

(** ** The engine under the default rules *)

(** After the removal loop only [AcquisitionDate] is left for the
    date shift to count. *)
Lemma shift_count_default (ds1 : Dataset) :
  (∀ t, t ∈ removed_tags → ds1 !! t = None) →
  length (filter (λ kw, shift_applies ds1 kw = true)
            (date_shift ANONYMIZATION_RULES).*1)
  = if shift_applies ds1 "AcquisitionDate" then 1%nat else 0%nat.
Proof.
  intros Hgone.
  assert (∀ kw, kw ∈ remove ANONYMIZATION_RULES → shift_applies ds1 kw = false) as Hno.
  { intros kw Hkw. unfold shift_applies.
    destruct (tag_for_keyword kw) as [t|] eqn:Ht; [| done].
    change (Some t ≫= (ds1 !!.)) with (ds1 !! t).
    now rewrite Hgone by (eapply removed_tag_of_keyword; eauto). }
  cbn [date_shift ANONYMIZATION_RULES fmap list_fmap fst].
  rewrite !filter_cons, filter_nil.
  rewrite !Hno by by_computation.
  rewrite !decide_False by done.
  destruct (shift_applies ds1 "AcquisitionDate").
  - now rewrite decide_True.
  - now rewrite decide_False.
Qed.

Lemma shift_applies_acquisition_date (ds : Dataset) :
  shift_applies ds "AcquisitionDate" =
  match ds !! acquisition_date with
  | Some elem => shiftable elem
  | None => false
  end.
Proof. reflexivity. Qed.

(** The engine under the default rules, in full: what it deletes, the one
    date it may shift, and the one UID it regenerates, on whose element the
    outcome hangs. *)
Lemma anonymize_default (ds : Dataset) (w : W) :
  ∃ (c : Z) (ds4 : Dataset),
    (∀ t, ds4 !! t =
          if is_private t || bool_decide (t ∈ removed_tags) then None
          else if bool_decide (t = acquisition_date) then shift_elem <$> ds !! t
          else ds !! t) ∧
    c + Z.of_nat (size ds4) = Z.of_nat (size ds) + shift_bit ds ∧
    0 ≤ c ≤ Z.of_nat (size ds) ∧
    anonymize_dicom (DatasetObj ds) None w =
    match ds !! sop_instance_uid with
    | None => (EngineOk c, DatasetObj ds4, w)
    | Some elem =>
        match assigned elem (generate_uid w).1 with
        | Value elem' =>
            (EngineOk c, DatasetObj (<[sop_instance_uid := elem']> ds4),
             (generate_uid w).2)
        | Raise err => (EngineFailed err, DatasetObj ds4, (generate_uid w).2)
        end
    end.
Proof.
  destruct (remove_loop (remove ANONYMIZATION_RULES) ds w 0)
    as (ds1 & c1 & E1 & L1 & S1 & Hle1).
  rewrite <- removed_tags_eq in L1.
  assert (∀ t, t ∈ removed_tags → ds1 !! t = None) as Hgone.
  { intros t Ht. now rewrite L1, bool_decide_true. }
  pose proof (replace_loop_absent (replace ANONYMIZATION_RULES) ds1 w c1) as E2.
  specialize (E2 (λ t Ht, Hgone t (replace_tags_removed t Ht))).
  destruct (shift_loop (date_shift ANONYMIZATION_RULES).*1 ds1 w c1
              date_shift_tags_distinct) as (ds3 & c3 & E3 & L3 & S3 & Hc3).
  rewrite shift_count_default in Hc3 by done.
  destruct (private_purge ds3 w c3) as (ds4 & c4 & E4 & L4 & S4 & Hle4).
  destruct uid_keywords as (Ksop & (study & Kstudy & Hstudy) & (series & Kseries & Hseries)).
  destruct acquisition_date_kept as (Hacq_kept & Hacq_std & Hacq_shift).
  destruct sop_instance_uid_kept as (Hsop_kept & Hsop_std & Hsop_shift & Hsop_acq).
  assert (∀ t, ds4 !! t =
            if is_private t || bool_decide (t ∈ removed_tags) then None
            else if bool_decide (t = acquisition_date) then shift_elem <$> ds !! t
            else ds !! t) as L.
  { intros t. rewrite L4, L3, L1.
    destruct (is_private t) eqn:Hp; cbn [orb]; [done |].
    destruct (decide (t ∈ removed_tags)) as [Hrm|Hrm].
    { rewrite !(bool_decide_true (t ∈ removed_tags)) by done. now case_bool_decide. }
    rewrite !(bool_decide_false (t ∈ removed_tags)) by done.
    destruct (decide (t = acquisition_date)) as [->|Hacq].
    { now rewrite (bool_decide_true (_ ∈ tags_of _)), bool_decide_true by done. }
    rewrite (bool_decide_false (t = acquisition_date)) by done.
    rewrite (bool_decide_false (_ ∈ tags_of _)); [done |].
    intros [?|?]%date_shift_tags_removed; done. }
  assert (shift_applies ds1 "AcquisitionDate" = shift_applies ds "AcquisitionDate") as Hbit.
  { rewrite !shift_applies_acquisition_date, L1. now rewrite bool_decide_false. }
  rewrite Hbit in Hc3.
  assert (ds4 !! sop_instance_uid = ds !! sop_instance_uid) as Hsop.
  { rewrite L, Hsop_std, (bool_decide_false (_ ∈ removed_tags)) by done. cbn [orb].
    now rewrite bool_decide_false. }
  assert (ds4 !! study = None) as Hstudy4.
  { rewrite L, (bool_decide_true (_ ∈ removed_tags)) by done. now rewrite orb_true_r. }
  assert (ds4 !! series = None) as Hseries4.
  { rewrite L, (bool_decide_true (_ ∈ removed_tags)) by done. now rewrite orb_true_r. }
  assert (study ≠ sop_instance_uid) as Hne_study by (intros ->; done).
  assert (series ≠ sop_instance_uid) as Hne_series by (intros ->; done).
  exists c4, ds4. split_and!; [done | | lia | |].
  - unfold shift_bit. destruct (shift_applies ds "AcquisitionDate"); cbn in Hc3; lia.
  - unfold shift_bit in *. destruct (shift_applies ds "AcquisitionDate") eqn:Hb; [| lia].
    assert (size ds4 ≠ 0%nat); [| lia].
    apply map_size_ne_0_lookup_2 with acquisition_date.
    rewrite L, Hacq_std, (bool_decide_false (_ ∈ removed_tags)) by done. cbn [orb].
    rewrite bool_decide_true by done.
    rewrite shift_applies_acquisition_date in Hb.
    destruct (ds !! acquisition_date); [cbn; eauto | done].
  - change (anonymize_dicom (DatasetObj ds) None w)
      with (anonymize_dicom (DatasetObj ds) (Some ANONYMIZATION_RULES) w).
    unfold anonymize_dicom.
    change (default ANONYMIZATION_RULES (Some ANONYMIZATION_RULES))
      with ANONYMIZATION_RULES.
    unfold anonymize_body. unfold bind at 1. rewrite E1.
    unfold bind at 1. rewrite E2. unfold bind at 1. rewrite E3.
    unfold bind at 1. rewrite E4. unfold bind at 1.
    rewrite <- Hsop. destruct (ds4 !! sop_instance_uid) as [elem|] eqn:Hel.
    + rewrite (regenerate_present "SOPInstanceUID" sop_instance_uid elem) by done.
      destruct (assigned elem (generate_uid w).1) as [elem'|err]; [| done].
      unfold bind at 1. rewrite regenerate_absent.
      2:{ rewrite Kstudy. change (Some study ≫= (?m !!.)) with (m !! study).
          now rewrite lookup_insert_ne. }
      unfold bind at 1. rewrite regenerate_absent.
      2:{ rewrite Kseries. change (Some series ≫= (?m !!.)) with (m !! series).
          now rewrite lookup_insert_ne. }
      done.
    + rewrite regenerate_absent by (rewrite Ksop; exact Hel).
      unfold bind at 1. rewrite regenerate_absent by (rewrite Kstudy; exact Hstudy4).
      unfold bind at 1. rewrite regenerate_absent by (rewrite Kseries; exact Hseries4).
      done.
Qed.

End Phases.

(** ** What the engine guarantees *)
Section Guarantees.
Context {W : Type} `{Host W}.

(** C1 (as amended).  Under the default rules, whatever the engine
    returns for a dataset, in the dataset it leaves: no identifier of the
    remove list is present; no private tag is present; no identifier of the
    replace mapping is present either (each of them is in the remove list
    and deleted before the replacement loop looks for it, so that no value
    is ever set to the configured literal); every other tag has the element
    it had, but for AcquisitionDate, the one date-shift target not removed,
    and SOPInstanceUID, the one UID tag not removed.  The engine reports
    success unless the dataset has a SOPInstanceUID that does not convert or
    that the setter refuses the new UID for; then it reports failure with
    the text of that exception, the deletions being done all the same. *)
Theorem default_rules_effect (ds : Dataset) (w : W) :
  ∃ r ds' w',
    anonymize_dicom (DatasetObj ds) None w = (r, DatasetObj ds', w') ∧
    (∀ kw t, kw ∈ remove ANONYMIZATION_RULES → tag_for_keyword kw = Some t →
             ds' !! t = None) ∧
    (∀ t, is_private t = true → ds' !! t = None) ∧
    (∀ kw t, kw ∈ (replace ANONYMIZATION_RULES).*1 → tag_for_keyword kw = Some t →
             ds' !! t = None) ∧
    (∀ t, is_private t = false →
          t ∉ tags_of (remove ANONYMIZATION_RULES) →
          tag_for_keyword "AcquisitionDate" ≠ Some t →
          tag_for_keyword "SOPInstanceUID" ≠ Some t →
          ds' !! t = ds !! t) ∧
    match tag_for_keyword "SOPInstanceUID" ≫= (ds !!.) with
    | None => ∃ c, r = EngineOk c
    | Some elem =>
        match conversion elem with
        | Some err => r = EngineFailed err
        | None =>
            match convert_value (VR elem) (generate_uid w).1 with
            | Value _ => ∃ c, r = EngineOk c
            | Raise err => r = EngineFailed err
            end
        end
    end.
Proof.
  destruct (anonymize_default ds w) as (c & ds4 & L & _ & _ & E).
  destruct sop_instance_uid_kept as (Hsop_kept & Hsop_std & _ & _).
  assert (∃ r ds' w',
    anonymize_dicom (DatasetObj ds) None w = (r, DatasetObj ds', w') ∧
    (∀ t, t ≠ sop_instance_uid → ds' !! t = ds4 !! t) ∧
    match ds !! sop_instance_uid with
    | None => ∃ c, r = EngineOk c
    | Some elem =>
        match conversion elem with
        | Some err => r = EngineFailed err
        | None =>
            match convert_value (VR elem) (generate_uid w).1 with
            | Value _ => ∃ c, r = EngineOk c
            | Raise err => r = EngineFailed err
            end
        end
    end) as (r & ds' & w' & E' & Hrest & Hr).
  { rewrite E. destruct (ds !! sop_instance_uid) as [elem|]; [| eauto 8].
    unfold assigned. destruct (conversion elem) as [err|]; [eauto 8 |].
    destruct (convert_value (VR elem) _) as [v|err]; [| eauto 8].
    eexists _, _, _. split_and!; [done | | eauto].
    intros t Ht. now rewrite lookup_insert_ne. }
  assert (∀ t, t ∈ removed_tags → ds' !! t = None) as Hgone.
  { intros t Ht. rewrite Hrest by (intros ->; done).
    rewrite L, (bool_decide_true (t ∈ removed_tags)) by done. now rewrite orb_true_r. }
  exists r, ds', w'. split_and!; [done | | | | | exact Hr].
  - intros kw t Hkw Ht. eapply Hgone, removed_tag_of_keyword; eauto.
  - intros t Hp. rewrite Hrest by (intros ->; congruence). now rewrite L, Hp.
  - intros kw t Hkw Ht. apply Hgone, replace_tags_removed, elem_of_tags_of. eauto.
  - intros t Hp Hrm Hacq Hsop. rewrite <- removed_tags_eq in Hrm.
    rewrite Hrest by (intros ->; now apply Hsop).
    rewrite L, Hp, (bool_decide_false (t ∈ removed_tags)) by done. cbn [orb].
    rewrite bool_decide_false; [done |]. intros ->. now apply Hacq.
Qed.



(** C3 (as amended).  On a dataset in which StudyDate reads "20210615" the
    engine under the default rules leaves no StudyDate, whatever it returns:
    the keyword is in the remove list and the removal loop runs before the
    date shift.  Under the default rules with "StudyDate" taken out of the
    remove list the element stays, and it holds what the setter stores for
    "20210101" (or what it held, if the setter raises). *)
Theorem study_date_scenario (ds : Dataset) (w : W) (t : N) (elem : DataElement) :
  tag_for_keyword "StudyDate" = Some t →
  ds !! t = Some elem →
  conversion elem = None →
  py_str (value elem) = Value "20210615" →
  (∃ r ds' w',
     anonymize_dicom (DatasetObj ds) None w = (r, DatasetObj ds', w') ∧
     ds' !! t = None) ∧
  (∃ r ds' w',
     anonymize_dicom (DatasetObj ds)
       (Some (without_removal "StudyDate" ANONYMIZATION_RULES)) w
     = (r, DatasetObj ds', w') ∧
     ds' !! t = Some match convert_value (VR elem) "20210101" with
                     | Value v => {| VR := VR elem; value := v; conversion := None |}
                     | Raise _ => elem
                     end).
Proof.
  intros Ht Hel Hconv Hval. vm_compute in Ht. injection Ht as <-. split.
  - destruct (default_rules_effect ds w) as (r & ds' & w' & E & Hrm & _).
    exists r, ds', w'. split; [done |].
    apply (Hrm "StudyDate"); [by_computation | reflexivity].
  - set (rules := without_removal "StudyDate" ANONYMIZATION_RULES).
    destruct (remove_loop (remove rules) ds w 0) as (ds1 & c1 & E1 & L1 & _).
    pose proof (replace_loop_absent (replace rules) ds1 w c1) as E2.
    destruct (shift_loop (date_shift rules).*1 ds1 w c1) as (ds3 & c3 & E3 & L3 & _).
    { by_computation. }
    destruct (private_purge ds3 w c3) as (ds4 & c4 & E4 & L4 & _).
    destruct (regenerate_uids c4 ds4 w) as (res & ds' & w' & E5 & [_ F5] & _).
    assert (Forall (λ kw, kw ∈ remove rules) (replace rules).*1) as Hkeys by by_computation.
    rewrite Forall_forall in Hkeys.
    assert (∀ t', t' ∈ tags_of (replace rules).*1 → ds1 !! t' = None) as Habs.
    { intros t' (kw & Hkw & Hkt)%elem_of_tags_of. rewrite L1, bool_decide_true; [done |].
      apply elem_of_tags_of. eauto. }
    specialize (E2 Habs).
    exists (match res with Value c => EngineOk c | Raise e => EngineFailed e end), ds', w'.
    split.
    + unfold anonymize_dicom. change (default ANONYMIZATION_RULES (Some rules)) with rules.
      unfold anonymize_body. unfold bind at 1. rewrite E1.
      unfold bind at 1. rewrite E2.
      unfold bind at 1. rewrite E3. unfold bind at 1. rewrite E4.
      rewrite E5. now destruct res.
    + rewrite F5 by by_computation.
      rewrite L4. change (is_private 524320) with false. cbv iota.
      rewrite L3, bool_decide_true by by_computation.
      rewrite L1, bool_decide_false by by_computation.
      rewrite Hel. cbn [fmap option_fmap option_map]. f_equal.
      unfold shift_elem, shifted_value. rewrite Hconv, Hval.
      rewrite bool_decide_true by (cbn; lia).
      change (String.substring 0 4 "20210615" +:+ "0101") with "20210101".
      now destruct (convert_value (VR elem) "20210101").
Qed.

End Guarantees.

End EngineFacts.

(** * Properties of the batch run *)
Module WorkerFacts.
Import DicomAnonymizer AnonymizationWorker Notions EngineFacts.

Lemma record_failure_spec (stats : Stats) (entry : string) :
  one_more_failure entry stats (record_failure stats entry).
Proof. now unfold one_more_failure. Qed.

Section Run.
Context {W : Type} `{Host W}.
Variables input_dir output_dir : string.

Abbreviation process_file := (process_file input_dir output_dir).
Abbreviation process_files := (process_files input_dir output_dir).
Abbreviation run := (run input_dir output_dir).

(** The engine reports success on datasets only, and leaves a dataset. *)
Lemma engine_ok_dataset (obj obj' : py_object) (w w' : W) (c : Z) :
  anonymize_dicom obj None w = (EngineOk c, obj', w') →
  ∃ ds', obj' = DatasetObj ds'.
Proof.
  destruct obj as [ds | len err].
  - destruct (anonymize_dataset None ds w) as (r & ds' & w0 & ->).
    intros [= _ <- _]. eauto.
  - now rewrite anonymize_corrupt.
Qed.

Lemma process_file_outcome (n : nat) (idx : Z) (file_path : string)
    (stats : Stats) (w : W) :
  ∃ stats' emitted w',
    process_file n idx file_path stats w = (stats', emitted, w') ∧
    step_outcome n idx file_path stats stats' emitted.
Proof.
  unfold process_file, on_exception.
  destruct (load_dicom file_path w) as [obj|e]; [| eauto using step_outcome].
  destruct (py_len obj) as [k|e]; [| eauto using step_outcome].
  destruct (anonymize_dicom obj None w) as [[[c|e] obj'] w1] eqn:Heng;
    [| eauto using step_outcome].
  apply engine_ok_dataset in Heng as [ds' ->].
  destruct (relative_to _ _) as [rel|e]; [| eauto using step_outcome].
  destruct (mkdir_parents _ w1) as [[[]|e] w2]; [| eauto using step_outcome].
  destruct (save_as _ _ w2) as [[[]|e] w3]; [| eauto using step_outcome].
  cbn [py_len]. eauto using step_outcome.
Qed.

(** When the engine reports failure the body ends in [continue]: nothing
    is emitted for the file.  On every other path the body emits the
    progress and the status line. *)
Lemma process_file_signals (n : nat) (idx : Z) (file_path : string)
    (stats : Stats) (w : W) :
  (process_file n idx file_path stats w).1.2 =
  match load_dicom file_path w with
  | Value obj =>
      match py_len obj, anonymize_dicom obj None w with
      | Value _, (EngineFailed _, _, _) => []
      | _, _ => after_file n idx file_path
      end
  | Raise _ => after_file n idx file_path
  end.
Proof.
  unfold AnonymizationWorker.process_file, on_exception.
  destruct (load_dicom file_path w) as [obj|e]; [| done].
  destruct (py_len obj) as [k|e].
  2:{ now destruct (anonymize_dicom obj None w) as [[[c|e'] obj'] w1]. }
  destruct (anonymize_dicom obj None w) as [[[c|e] obj'] w1] eqn:Heng; [| done].
  apply engine_ok_dataset in Heng as [ds' ->].
  destruct (relative_to _ _) as [rel|e]; [| done].
  destruct (mkdir_parents _ w1) as [[[]|e] w2]; [| done].
  destruct (save_as _ _ w2) as [[[]|e] w3]; done.
Qed.

Lemma step_outcome_counts (n : nat) (idx : Z) (file_path : string)
    (stats stats' : Stats) (emitted : list signal) :
  step_outcome n idx file_path stats stats' emitted →
  total stats' = total stats ∧
  successful stats' + failed stats' = successful stats + failed stats + 1 ∧
  Forall interim emitted.
Proof.
  intros [e|e|k]; cbn; split_and!; try lia; try done;
    repeat constructor.
Qed.

Lemma process_files_counts (n : nat) (dicom_files : list string) (idx : Z)
    (stats : Stats) (w : W) :
  ∃ stats' emitted w',
    process_files n idx dicom_files stats w = (stats', emitted, w') ∧
    total stats' = total stats ∧
    successful stats' + failed stats'
      = successful stats + failed stats + Z.of_nat (length dicom_files) ∧
    Forall interim emitted.
Proof.
  revert idx stats w.
  induction dicom_files as [|file_path rest IH]; intros idx stats w.
  - exists stats, [], w. cbn. split_and!; [done | done | lia | constructor].
  - cbn [AnonymizationWorker.process_files].
    destruct (process_file_outcome n idx file_path stats w)
      as (stats1 & emitted1 & w1 & -> & Hstep).
    apply step_outcome_counts in Hstep as (Htot & Hsum & Hint).
    destruct (IH (idx + 1) stats1 w1) as (stats2 & emitted2 & w2 & -> & Htot' & Hsum' & Hint').
    exists stats2, (emitted1 ++ emitted2)%list, w2.
    split_and!; [done | congruence | cbn [length]; lia | now apply Forall_app].
Qed.

(** C6.  When a run ends by emitting [finished] with status success,
    the statistics it carries satisfy [successful + failed = total], and
    [total] is the number of files [find_dicom_files] returns for the
    input directory. *)
Theorem stats_add_up (w w' : W) (emitted : list signal) (stats : Stats) :
  run w = (emitted, w') →
  finished (StatusSuccess stats) ∈ emitted →
  successful stats + failed stats = total stats ∧
  ∃ dicom_files,
    find_dicom_files input_dir w = Value dicom_files ∧
    total stats = Z.of_nat (length dicom_files).
Proof.
  unfold AnonymizationWorker.run.
  destruct (find_dicom_files input_dir w) as [dicom_files|e].
  2:{ intros [= <- _] [=]%list_elem_of_singleton. }
  destruct dicom_files as [|file_path rest].
  { intros [= <- _] [=]%list_elem_of_singleton. }
  set (dicom_files := file_path :: rest).
  destruct (mkdir_parents output_dir w) as [[[]|e] w1].
  2:{ intros [= <- _] [=]%list_elem_of_singleton. }
  match goal with |- context [process_files ?n ?i ?l ?s ?w] =>
    destruct (process_files_counts n l i s w)
      as (stats' & emitted' & w2 & -> & Htot & Hsum & Hint)
  end.
  cbn in Htot, Hsum.
  intros [= <- _] [Hin | [= <-]%list_elem_of_singleton]%elem_of_app.
  - rewrite Forall_forall in Hint. now apply Hint in Hin.
  - split; [| exists dicom_files; split; [done |]].
    + rewrite Hsum, Htot. lia.
    + now rewrite Htot.
Qed.

(** C8.  When a file fails to load, or the engine fails on it, the
    loop body appends to the error list exactly one entry, the name of the
    file followed by the error text unchanged, adds one to [failed], and
    leaves the other statistics as they were; the loop goes on with the
    next file from there.  And no failure of this kind (or of any kind
    inside the loop) aborts the run: once the files are found and the
    output directory is made, [run] ends with [finished] carrying status
    success. *)
Theorem per_file_failure_recovered (n : nat) (idx : Z) (file_path : string)
    (rest : list string) (stats : Stats) (w w1 : W) (text : string) :
  file_fails file_path w text w1 →
  (∃ stats1 emitted,
     process_file n idx file_path stats w = (stats1, emitted, w1) ∧
     one_more_failure (path_name file_path +:+ ": " +:+ text) stats stats1 ∧
     process_files n idx (file_path :: rest) stats w =
       (let '(stats2, emitted', w2) := process_files n (idx + 1) rest stats1 w1 in
        (stats2, (emitted ++ emitted')%list, w2))) ∧
  (∀ w0 w0' dicom_files,
     find_dicom_files input_dir w0 = Value dicom_files → dicom_files ≠ [] →
     mkdir_parents output_dir w0 = (Value (), w0') →
     ∃ emitted stats' w',
       run w0 = ((emitted ++ [finished (StatusSuccess stats')])%list, w') ∧
       Forall interim emitted).
Proof.
  intros Hfail. split.
  - assert (∃ stats1 emitted,
      process_file n idx file_path stats w = (stats1, emitted, w1) ∧
      one_more_failure (path_name file_path +:+ ": " +:+ text) stats stats1)
      as (stats1 & emitted & Hstep & Hone).
    { destruct Hfail as [e Hload | obj k e obj' w' Hload Hlen Heng];
        unfold AnonymizationWorker.process_file, load_dicom; rewrite Hload.
      - eexists _, _. split; [reflexivity | apply record_failure_spec].
      - rewrite Hlen, Heng.
        eexists _, _. split; [reflexivity | apply record_failure_spec]. }
    exists stats1, emitted. split_and!; [done | done |].
    cbn [AnonymizationWorker.process_files]. now rewrite Hstep.
  - intros w0 w0' dicom_files Hfind Hne Hmk. unfold AnonymizationWorker.run.
    rewrite Hfind. destruct dicom_files as [|f fs]; [done |]. rewrite Hmk.
    match goal with |- context [process_files ?n ?i ?l ?s ?w] =>
      destruct (process_files_counts n l i s w)
        as (stats' & emitted' & w2 & -> & _ & _ & Hint)
    end.
    eauto.
Qed.

(** C9.  When discovery finds no file, the run emits a single signal,
    [finished] with status error and the message "No DICOM files found",
    and leaves the world as it found it: no file was loaded or written,
    and no directory was made, the output directory included. *)
Theorem no_files_no_output (w : W) :
  find_dicom_files input_dir w = Value [] →
  run w = ([finished (StatusError "No DICOM files found")], w).
Proof. intros Hfind. unfold AnonymizationWorker.run. now rewrite Hfind. Qed.

(** C10 (as amended).  For a path on which [exists()] answers False,
    [find_dicom_files] returns the empty list, and the run over it ends
    exactly as a run over a directory that exists and has no [.dcm] file
    beneath it: one signal, [finished] with status error and message
    "No DICOM files found", the world untouched.  For a path on which
    [exists()] raises (a missing path with a name that is too long, say),
    [find_dicom_files] raises as well, and the run ends with one signal,
    [finished] with status error and the text of that exception, the world
    untouched too. *)
Theorem missing_input_like_empty (w : W) :
  match path_exists input_dir w with
  | Value false =>
      find_dicom_files input_dir w = Value [] ∧
      run w = ([finished (StatusError "No DICOM files found")], w) ∧
      (∀ (existing : string) (w' : W),
         path_exists existing w' = Value true → rglob_dcm existing w' = Value [] →
         AnonymizationWorker.run existing output_dir w'
         = ([finished (StatusError "No DICOM files found")], w'))
  | Raise e =>
      find_dicom_files input_dir w = Raise e ∧
      run w = ([finished (StatusError e)], w)
  | Value true => True
  end.
Proof.
  destruct (path_exists input_dir w) as [[|]|e] eqn:Hexists; [done | |].
  - assert (find_dicom_files input_dir w = Value []) as Hfind
      by (unfold find_dicom_files; now rewrite Hexists).
    split_and!; [done | |].
    + unfold AnonymizationWorker.run. now rewrite Hfind.
    + intros existing w' Hex Hglob. unfold AnonymizationWorker.run, find_dicom_files.
      now rewrite Hex, Hglob.
  - assert (find_dicom_files input_dir w = Raise e) as Hfind
      by (unfold find_dicom_files; now rewrite Hexists).
    split; [done |]. unfold AnonymizationWorker.run. now rewrite Hfind.
Qed.

End Run.

End WorkerFacts.

(** * The program on concrete inputs *)
Module Scenarios.
Import DicomAnonymizer AnonymizationWorker Notions InMemory Inputs Cases.
Import EngineFacts WorkerFacts.

(** C1 as stated fails: PatientName is in the replace mapping, with
    literal "ANONYMIZED", and present in [john_doe]; the engine succeeds
    and the dataset it leaves has no PatientName at all. *)
Lemma patient_name_not_replaced :
  ("PatientName", "ANONYMIZED") ∈ replace ANONYMIZATION_RULES ∧
  tag_for_keyword "PatientName" = Some patient_name ∧
  is_Some (john_doe !! patient_name) ∧
  ¬ (∃ ds' elem, anonymized john_doe = Some ds' ∧
                 ds' !! patient_name = Some elem ∧ value elem = PyStr "ANONYMIZED") ∧
  ∃ ds', anonymized john_doe = Some ds' ∧ ds' !! patient_name = None.
Proof.
  assert (∃ ds', anonymized john_doe = Some ds' ∧ ds' !! patient_name = None) as Hrun.
  { eexists. split; vm_compute; reflexivity. }
  split_and!; [repeat constructor | reflexivity | by vm_compute; eauto | | done].
  destruct Hrun as (ds0 & Hds0 & Hnone).
  intros (ds' & elem & Hds' & Hel & _). congruence.
Qed.

(** C3 as stated fails: on [dated], where StudyDate is "20210615", the
    engine under the default rules leaves a dataset without StudyDate, not
    one where it is "20210101". *)
Lemma study_date_not_shifted :
  dated !! study_date = Some (element "DA" "20210615") ∧
  ¬ (∃ ds' elem, anonymized dated = Some ds' ∧
                 ds' !! study_date = Some elem ∧ value elem = PyStr "20210101").
Proof.
  split; [reflexivity |].
  assert (∃ ds', anonymized dated = Some ds' ∧ ds' !! study_date = None)
    as (ds0 & Hds0 & Hnone) by (eexists; split; vm_compute; reflexivity).
  intros (ds' & elem & Hds' & Hel & _). congruence.
Qed.

Lemma study_date_scenario_witness :
  (tag_for_keyword "StudyDate" = Some study_date ∧
   dated !! study_date = Some (element "DA" "20210615") ∧
   conversion (element "DA" "20210615") = None ∧
   py_str (value (element "DA" "20210615")) = Value "20210615") ∧
  (∃ r ds' w',
     anonymize_dicom (DatasetObj dated) None nowhere = (r, DatasetObj ds', w') ∧
     ds' !! study_date = None) ∧
  (∃ r ds' w',
     anonymize_dicom (DatasetObj dated)
       (Some (without_removal "StudyDate" ANONYMIZATION_RULES)) nowhere
     = (r, DatasetObj ds', w') ∧
     ds' !! study_date = Some (element "DA" "20210101")).
Proof.
  split; [split_and!; reflexivity |].
  exact (study_date_scenario dated nowhere study_date (element "DA" "20210615")
           eq_refl eq_refl eq_refl eq_refl).
Defined.



(** Under another rule set the count can exceed the number of elements:
    under [overlapping_rules] the engine counts the one element of
    [john_doe] twice, once replaced and once shifted. *)
Lemma count_exceeds_size :
  size john_doe = 1%nat ∧
  (∃ ds' w',
     anonymize_dicom (DatasetObj john_doe) (Some overlapping_rules) nowhere
     = (EngineOk 2, DatasetObj ds', w')) ∧
  ¬ (∃ c ds' w',
       anonymize_dicom (DatasetObj john_doe) (Some overlapping_rules) nowhere
       = (EngineOk c, DatasetObj ds', w') ∧
       0 ≤ c ≤ Z.of_nat (size john_doe)).
Proof.
  assert (size john_doe = 1%nat) as Hsize by reflexivity.
  assert (∃ ds' w',
     anonymize_dicom (DatasetObj john_doe) (Some overlapping_rules) nowhere
     = (EngineOk 2, DatasetObj ds', w')) as Hrun
    by (eexists _, _; vm_compute; reflexivity).
  split_and!; [done | done |].
  destruct Hrun as (ds0 & w0 & Hrun).
  intros (c & ds' & w' & E & Hc). rewrite Hrun in E. injection E as <- _ _. lia.
Qed.

(** Three files that load and one that does not: the files are taken in
    sorted order, each is followed by its progress and status, and the
    statistics count 3 successes and 1 failure, with one error entry. *)
Example ward_run :
  (run "in" "out" ward).1 =
    [ progress 25; status "Processing 1/4: a.dcm";
      progress 50; status "Processing 2/4: broken.dcm";
      progress 75; status "Processing 3/4: c.dcm";
      progress 100; status "Processing 4/4: b.dcm";
      finished (StatusSuccess ward_stats) ] ∧
  (written (run "in" "out" ward).2).*1 = ["out/sub/b.dcm"; "out/c.dcm"; "out/a.dcm"].
Proof. split; vm_compute; reflexivity. Qed.

Lemma stats_add_up_witness :
  (run "in" "out" ward = ((run "in" "out" ward).1, (run "in" "out" ward).2) ∧
   finished (StatusSuccess ward_stats) ∈ (run "in" "out" ward).1) ∧
  successful ward_stats + failed ward_stats = total ward_stats ∧
  ∃ dicom_files,
    find_dicom_files "in" ward = Value dicom_files ∧
    total ward_stats = Z.of_nat (length dicom_files).
Proof.
  assert (finished (StatusSuccess ward_stats) ∈ (run "in" "out" ward).1) as Hin
    by (vm_compute; repeat constructor).
  split; [split; [apply surjective_pairing | exact Hin] |].
  apply (stats_add_up "in" "out" ward (run "in" "out" ward).2 (run "in" "out" ward).1
           ward_stats);
    [apply surjective_pairing | exact Hin].
Defined.

(** C7 fails on the code.  When the engine reports failure for a file
    the loop body ends in [continue] and the run emits neither progress nor
    status for it: over [unreadable] the only signal is [finished].  The
    other failure path does emit them: over [unloadable] the run emits
    progress 100 and the status line before [finished]. *)
Theorem engine_failure_is_silent :
  (run "in" "out" unreadable).1 =
    [ finished (StatusSuccess
        {| total := 1; successful := 0; failed := 1; total_tags_removed := 0;
           errors := ["scan.dcm: not a dataset"] |}) ] ∧
  (run "in" "out" unloadable).1 =
    [ progress 100; status "Processing 1/1: scan.dcm";
      finished (StatusSuccess
        {| total := 1; successful := 0; failed := 1; total_tags_removed := 0;
           errors := ["scan.dcm: Error loading DICOM: Invalid DICOM"] |}) ].
Proof. split; vm_compute; reflexivity. Qed.

(** The percentage is computed in binary64, as the source does: at file
    29 of 100 the quotient 0.29 times 100 falls just short of 29. *)
Lemma progress_in_binary64 :
  progress_percent 29 100 = 28 ∧ progress_percent 1 3 = 33 ∧ progress_percent 3 3 = 100.
Proof. split_and!; vm_compute; reflexivity. Qed.

Lemma per_file_failure_recovered_witness :
  file_fails "in/broken.dcm" ward "Error loading DICOM: Invalid DICOM" ward ∧
  (∃ stats1 emitted,
     process_file "in" "out" 4 3 "in/broken.dcm" ward_stats ward
       = (stats1, emitted, ward) ∧
     one_more_failure
       (path_name "in/broken.dcm" +:+ ": " +:+ "Error loading DICOM: Invalid DICOM")
       ward_stats stats1 ∧
     process_files "in" "out" 4 3 ["in/broken.dcm"; "in/c.dcm"] ward_stats ward =
       (let '(stats2, emitted', w2) :=
          process_files "in" "out" 4 (3 + 1) ["in/c.dcm"] stats1 ward in
        (stats2, (emitted ++ emitted')%list, w2))) ∧
  (∀ w0 w0' dicom_files,
     find_dicom_files "in" w0 = Value dicom_files → dicom_files ≠ [] →
     mkdir_parents "out" w0 = (Value (), w0') →
     ∃ emitted stats' w',
       run "in" "out" w0 = ((emitted ++ [finished (StatusSuccess stats')])%list, w') ∧
       Forall interim emitted).
Proof.
  assert (file_fails "in/broken.dcm" ward "Error loading DICOM: Invalid DICOM" ward)
    as Hfail by (apply (load_error "in/broken.dcm" ward "Invalid DICOM"); reflexivity).
  split; [exact Hfail |].
  exact (per_file_failure_recovered "in" "out" 4 3 "in/broken.dcm" ["in/c.dcm"]
           ward_stats ward ward _ Hfail).
Defined.

Lemma no_files_no_output_witness :
  find_dicom_files "in" empty_dir = Value [] ∧
  run "in" "out" empty_dir = ([finished (StatusError "No DICOM files found")], empty_dir).
Proof.
  split; [reflexivity |].
  apply (no_files_no_output "in" "out" empty_dir). reflexivity.
Defined.

Lemma missing_input_like_empty_witness :
  path_exists "elsewhere" empty_dir = Value false ∧
  find_dicom_files "elsewhere" empty_dir = Value [] ∧
  run "elsewhere" "out" empty_dir
    = ([finished (StatusError "No DICOM files found")], empty_dir) ∧
  (∀ (existing : string) (w' : world),
     path_exists existing w' = Value true → rglob_dcm existing w' = Value [] →
     run existing "out" w' = ([finished (StatusError "No DICOM files found")], w')).
Proof.
  split; [reflexivity |].
  exact (missing_input_like_empty "elsewhere" "out" empty_dir).
Defined.

(** C10 as stated fails: [long_name] is no directory and no file of
    [empty_dir], yet [exists()] raises on it, the name being too long; the
    run over it ends with the text of that error, not with the message of
    the run over the directory "in", which has no [.dcm] file. *)
Lemma missing_input_not_like_empty :
  (long_name ∉ directories empty_dir) ∧ (long_name ∉ (tree empty_dir).*1) ∧
  (∃ e, path_exists long_name empty_dir = Raise e ∧
        find_dicom_files long_name empty_dir = Raise e ∧
        run long_name "out" empty_dir = ([finished (StatusError e)], empty_dir) ∧
        e ≠ "No DICOM files found") ∧
  run "in" "out" empty_dir = ([finished (StatusError "No DICOM files found")], empty_dir).
Proof.
  split_and!; [by_computation | by_computation | | reflexivity].
  eexists. split_and!; [vm_compute; reflexivity | vm_compute; reflexivity
                        | vm_compute; reflexivity | discriminate].
Qed.

(** The engine's failure on a file as the codec may well load it: in
    [clinic] the second file has a SOPInstanceUID that does not convert; the
    run counts it as failed and emits nothing for it. *)
Example clinic_run :
  (run "in" "out" clinic).1 =
    [ progress 33; status "Processing 1/3: a.dcm";
      progress 100; status "Processing 3/3: c.dcm";
      finished (StatusSuccess
        {| total := 3; successful := 2; failed := 1; total_tags_removed := 2;
           errors := ["b.dcm: Unknown Value Representation 'ZZ'"] |}) ] ∧
  (written (run "in" "out" clinic).2).*1 = ["out/c.dcm"; "out/a.dcm"].
Proof. split; vm_compute; reflexivity. Qed.

End Scenarios.

(** * Further properties of the engine, the run and the handlers *)
Module MoreFacts.
Import DicomAnonymizer AnonymizationWorker DicomAnonymizerApp.
Import Notions Terms EngineFacts WorkerFacts.

(** ** The order of [sorted] *)

Lemma ascii_compare_refl (a : Ascii.ascii) : Ascii.compare a a = Eq.
Proof. unfold Ascii.compare. apply N.compare_refl. Qed.

Lemma ascii_compare_lt_trans (a b c : Ascii.ascii) :
  Ascii.compare a b = Lt → Ascii.compare b c = Lt → Ascii.compare a c = Lt.
Proof.
  unfold Ascii.compare. rewrite !N.compare_lt_iff. lia.
Qed.

Lemma str_le_trans (a b c : string) : str_le a b → str_le b c → str_le a c.
Proof.
  unfold str_le, String.leb. revert b c.
  induction a as [|x a IH]; intros [|y b] [|z c]; simpl; try done.
  destruct (Ascii.compare x y) eqn:Hxy; [| | done];
    destruct (Ascii.compare y z) eqn:Hyz; try done.
  - apply Ascii.compare_eq_iff in Hxy as ->. apply Ascii.compare_eq_iff in Hyz as ->.
    rewrite ascii_compare_refl. apply IH.
  - apply Ascii.compare_eq_iff in Hxy as ->. now rewrite Hyz.
  - apply Ascii.compare_eq_iff in Hyz as <-. now rewrite Hxy.
  - now rewrite (ascii_compare_lt_trans x y z).
Qed.

Lemma str_le_total : Total str_le.
Proof.
  intros a b. unfold str_le.
  destruct (String.leb_total a b) as [-> | ->]; [left | right]; exact I.
Qed.

Section Discovery.
Context {W : Type} `{Host W}.

(** X1.  What [find_dicom_files] returns is in ascending order (each
    path is at most every later one), and it is a rearrangement of what the
    recursive glob found when the directory exists, the empty list when it
    does not. *)
Theorem discovery_sorted (directory : string) (w : W) (dicom_files : list string) :
  find_dicom_files directory w = Value dicom_files →
  StronglySorted str_le dicom_files ∧
  match path_exists directory w with
  | Value true => ∃ found, rglob_dcm directory w = Value found ∧ dicom_files ≡ₚ found
  | Value false => dicom_files = []
  | Raise _ => False
  end.
Proof.
  unfold find_dicom_files. destruct (path_exists directory w) as [[|]|e]; [| | done].
  - destruct (rglob_dcm directory w) as [found|e]; [| done].
    intros [= <-].
    split; [apply (StronglySorted_merge_sort str_le
                     (Transitive0 := str_le_trans) (Total0 := str_le_total)) |].
    exists found. split; [done | apply merge_sort_Permutation].
  - intros [= <-]. split; [constructor | done].
Qed.

End Discovery.

(** ** The engine under any rule set *)
Section AnyRules.
Context {W : Type} `{Host W}.

(** From the input to what the engine leaves, whatever it returns. *)
Lemma anonymize_within (rules : Rules) (ds : Dataset) (w : W) :
  ∃ r ds' w',
    anonymize_dicom (DatasetObj ds) (Some rules) w = (r, DatasetObj ds', w') ∧
    within (touched_by rules) ds ds' ∧
    (∀ t, t ∈ tags_of (remove rules) → ds' !! t = None) ∧
    ((∃ c, r = EngineOk c) → ∀ t, is_private t = true → ds' !! t = None).
Proof.
  destruct (anonymize_outcome rules ds w) as (c1 & ds1 & L1 & _ & _ & Hcase).
  assert (within (touched_by rules) ds ds1) as I1.
  { split.
    - intros t e' He'. rewrite L1 in He'. case_bool_decide; [done | eauto].
    - intros t Ht. rewrite L1, bool_decide_false; [done |].
      intros Hin. apply Ht. right. left. unfold named_tags. rewrite !elem_of_app. tauto. }
  assert (∀ t, t ∈ tags_of (remove rules) → ds1 !! t = None) as Hgone
    by (intros t Ht; now rewrite L1, bool_decide_true).
  destruct Hcase as [(e & ds2 & _ & E & I2)
                    | (c2 & c3 & c4 & ds2 & ds3 & ds4 & ds' & res & w' & Hrest)].
  - exists (EngineFailed e), ds2, w. split_and!; [done | | | intros [? ?]; done].
    + apply within_trans with ds1; [done |]. eapply within_weaken; [| exact I2].
      intros t Ht. right. left. unfold named_tags. rewrite !elem_of_app. tauto.
    + intros t Ht. apply keeps_elements_none with ds1; [apply I2 | now apply Hgone].
  - destruct Hrest as (_ & I2 & I3 & L4 & I5 & _ & _ & E).
    pose proof (private_purge_within _ _ L4) as I4.
    assert (within (touched_by rules) ds1 ds') as I.
    { apply within_trans with ds4; [apply within_trans with ds3;
        [apply within_trans with ds2 |] |].
      - eapply within_weaken; [| exact I2].
        intros t Ht. right. left. unfold named_tags. rewrite !elem_of_app. tauto.
      - eapply within_weaken; [| exact I3].
        intros t Ht. right. left. unfold named_tags. rewrite !elem_of_app. tauto.
      - eapply within_weaken; [| exact I4]. intros t Ht. now left.
      - eapply within_weaken; [| exact I5]. intros t Ht. right. now right. }
    eexists _, ds', w'. split_and!; [exact E | | |].
    + now apply within_trans with ds1.
    + intros t Ht. apply keeps_elements_none with ds1; [apply I | now apply Hgone].
    + intros _ t Hp. apply keeps_elements_none with ds4; [apply I5 |].
      now rewrite L4, Hp.
Qed.

(** X2.  Whatever the rule set and whatever the engine returns, the
    dataset it leaves holds no element for a keyword of the remove list: no
    later phase brings back what was deleted, and a failure comes after the
    removal loop.  When the engine reports success the dataset holds no
    private tag either. *)
Theorem removal_and_purge_win (rules : Rules) (ds : Dataset) (w : W) :
  ∃ r ds' w',
    anonymize_dicom (DatasetObj ds) (Some rules) w = (r, DatasetObj ds', w') ∧
    (∀ kw t, kw ∈ remove rules → tag_for_keyword kw = Some t → ds' !! t = None) ∧
    ((∃ c, r = EngineOk c) → ∀ t, is_private t = true → ds' !! t = None).
Proof.
  destruct (anonymize_within rules ds w) as (r & ds' & w' & E & _ & Hgone & Hpriv).
  exists r, ds', w'. split_and!; [done | | done].
  intros kw t Hkw Ht. apply Hgone, elem_of_tags_of. eauto.
Qed.

(** X3.  Whatever the rule set and whatever the engine returns, it
    leaves untouched every element whose tag is not private, is not the tag
    of a keyword in any of the three rule categories, and is not one of the
    three UID tags. *)
Theorem engine_frame (rules : Rules) (ds : Dataset) (w : W) :
  ∃ r ds' w',
    anonymize_dicom (DatasetObj ds) (Some rules) w = (r, DatasetObj ds', w') ∧
    (∀ t, is_private t = false → t ∉ named_tags rules → t ∉ uid_tags →
          ds' !! t = ds !! t).
Proof.
  destruct (anonymize_within rules ds w) as (r & ds' & w' & E & [_ Hframe] & _).
  exists r, ds', w'. split; [done |].
  intros t Hp Hnamed Huid. apply Hframe. intros [Hp' | [? | ?]]; [congruence | done | done].
Qed.

(** X4.  Whatever the rule set and whatever the engine returns, it
    never adds an element and never changes a value representation: each
    element of the dataset it leaves sits at a tag the input had, with the
    VR it had there; so that dataset is no larger than the input. *)
Theorem engine_never_adds (rules : Rules) (ds : Dataset) (w : W) :
  ∃ r ds' w',
    anonymize_dicom (DatasetObj ds) (Some rules) w = (r, DatasetObj ds', w') ∧
    (∀ t e', ds' !! t = Some e' → ∃ e, ds !! t = Some e ∧ VR e' = VR e) ∧
    (size ds' ≤ size ds)%nat.
Proof.
  destruct (anonymize_within rules ds w) as (r & ds' & w' & E & [Hkeep _] & _).
  exists r, ds', w'. split_and!; [done | exact Hkeep | now apply keeps_elements_size].
Qed.

(** X5.  When the engine reports success under a rule set that replaces
    a keyword whose tag it neither removes nor date-shifts, and the tag is
    neither private nor a UID tag, an element the dataset had at that tag
    was one that converts, and it ends with its VR and with what the setter
    stores for the literal of the mapping. *)
Theorem replacement_takes_effect (rules : Rules) (ds ds' : Dataset) (w w' : W)
    (c : Z) (kw lit : string) (t : N) (elem : DataElement) :
  (kw, lit) ∈ replace rules →
  tag_for_keyword kw = Some t →
  (∀ kw' lit', (kw', lit') ∈ replace rules → tag_for_keyword kw' = Some t → lit' = lit) →
  t ∉ tags_of (remove rules) →
  t ∉ tags_of (date_shift rules).*1 →
  is_private t = false →
  t ∉ uid_tags →
  ds !! t = Some elem →
  anonymize_dicom (DatasetObj ds) (Some rules) w = (EngineOk c, DatasetObj ds', w') →
  conversion elem = None ∧
  ∃ v, convert_value (VR elem) lit = Value v ∧
       ds' !! t = Some {| VR := VR elem; value := v; conversion := None |}.
Proof.
  intros Hin Htag Hsame Hrm Hshift Hp Huid Hel E.
  destruct (anonymize_outcome rules ds w) as (c1 & ds1 & L1 & _ & _ & Hcase).
  destruct Hcase as [(e & ds2 & _ & E' & _)
                    | (c2 & c3 & c4 & ds2 & ds3 & ds4 & ds0 & res & w0 & Hrest)].
  { rewrite E in E'. discriminate. }
  destruct Hrest as (E2 & _ & [_ F3] & L4 & [_ F5] & _ & _ & E').
  rewrite E in E'. injection E' as _ <- <-.
  assert (ds1 !! t = Some elem) as Hel1 by (now rewrite L1, bool_decide_false).
  destruct (replace_loop_value _ _ _ _ _ _ _ t lit elem E2) as (Hconv & v & Hv & Hel2);
    [| done | done |].
  { apply elem_of_tags_of. exists kw. split; [| done].
    apply list_elem_of_fmap. now exists (kw, lit). }
  split; [done |]. exists v. split; [done |].
  now rewrite F5, L4, Hp, F3.
Qed.

End AnyRules.

(** ** The engine under the default rules, in full *)
Section DefaultRules.
Context {W : Type} `{Host W}.

Lemma shift_bit_read (ds : Dataset) :
  shift_bit ds = match ds !! acquisition_date with
                 | Some e => if shiftable e then 1 else 0
                 | None => 0
                 end.
Proof.
  unfold shift_bit. rewrite shift_applies_acquisition_date.
  now destruct (ds !! acquisition_date).
Qed.

Lemma shiftable_read (e : DataElement) :
  shiftable e =
  match conversion e, py_str (value e) with
  | None, Value s =>
      if bool_decide (8 ≤ String.length s)%nat
      then match convert_value (VR e) (String.substring 0 4 s +:+ "0101") with
           | Value _ => true
           | Raise _ => false
           end
      else false
  | _, _ => false
  end.
Proof.
  unfold shiftable, shifted_value.
  destruct (conversion e); [apply bool_decide_false; intros [? ?]; done |].
  destruct (py_str (value e)) as [s|]; [| apply bool_decide_false; intros [? ?]; done].
  destruct (bool_decide (8 ≤ String.length s)%nat);
    [| apply bool_decide_false; intros [? ?]; done].
  destruct (convert_value (VR e) _);
    [apply bool_decide_true; eauto | apply bool_decide_false; intros [? ?]; done].
Qed.

Lemma same_tags_same_size (a b : Dataset) :
  (∀ t, is_Some (a !! t) ↔ is_Some (b !! t)) → size a = size b.
Proof.
  intros Hsame. rewrite <- !size_dom. f_equal. apply set_eq. intros t.
  rewrite !elem_of_dom. apply Hsame.
Qed.

(** What the engine leaves under the default rules, whatever it returns:
    [c] is the count it returns when it reports success. *)
Lemma anonymize_default_any (ds : Dataset) (w : W) :
  ∃ r c ds' w',
    anonymize_dicom (DatasetObj ds) None w = (r, DatasetObj ds', w') ∧
    (∀ t, t ≠ sop_instance_uid →
          ds' !! t =
          if is_private t || bool_decide (t ∈ removed_tags) then None
          else if bool_decide (t = acquisition_date) then shift_elem <$> ds !! t
          else ds !! t) ∧
    c + Z.of_nat (size ds') = Z.of_nat (size ds) + shift_bit ds ∧
    0 ≤ c ≤ Z.of_nat (size ds) ∧
    (size ds' ≤ size ds)%nat ∧
    w' = match ds !! sop_instance_uid with
         | Some _ => (generate_uid w).2
         | None => w
         end ∧
    match ds !! sop_instance_uid with
    | None => r = EngineOk c ∧ ds' !! sop_instance_uid = None
    | Some elem =>
        match assigned elem (generate_uid w).1 with
        | Value elem' => r = EngineOk c ∧ ds' !! sop_instance_uid = Some elem'
        | Raise err => r = EngineFailed err ∧ ds' !! sop_instance_uid = Some elem
        end
    end.
Proof.
  destruct (anonymize_default ds w) as (c & ds4 & L & Hsz & Hc & E).
  destruct sop_instance_uid_kept as (Hsop_kept & Hsop_std & _ & Hsop_acq).
  assert (ds4 !! sop_instance_uid = ds !! sop_instance_uid) as Hsop.
  { rewrite L, Hsop_std, (bool_decide_false (_ ∈ removed_tags)) by done. cbn [orb].
    now rewrite bool_decide_false. }
  assert (size ds4 ≤ size ds)%nat as Hle.
  { apply keeps_elements_size. intros t e' He'. rewrite L in He'.
    destruct (is_private t || bool_decide (t ∈ removed_tags)); [done |].
    case_bool_decide; [| eauto].
    destruct (ds !! t) as [e|]; [| done]. injection He' as <-.
    exists e. split; [done | apply shift_elem_VR]. }
  rewrite E. destruct (ds !! sop_instance_uid) as [elem|] eqn:Hel.
  - destruct (assigned elem (generate_uid w).1) as [elem'|err].
    + exists (EngineOk c), c, (<[sop_instance_uid := elem']> ds4), (generate_uid w).2.
      assert (size (<[sop_instance_uid := elem']> ds4) = size ds4) as Hsame
        by (apply map_size_insert_Some; rewrite Hsop; eauto).
      split_and!; try done; try lia.
      * intros t Ht. now rewrite lookup_insert_ne.
      * apply lookup_insert_eq.
    + exists (EngineFailed err), c, ds4, (generate_uid w).2.
      split_and!; try done; lia.
  - exists (EngineOk c), c, ds4, w. split_and!; try done; lia.
Qed.

(** The same for a call that reported success. *)
Lemma anonymize_default_ok (ds ds' : Dataset) (w w' : W) (c : Z) :
  anonymize_dicom (DatasetObj ds) None w = (EngineOk c, DatasetObj ds', w') →
  (∀ t, t ≠ sop_instance_uid →
        ds' !! t =
        if is_private t || bool_decide (t ∈ removed_tags) then None
        else if bool_decide (t = acquisition_date) then shift_elem <$> ds !! t
        else ds !! t) ∧
  c = Z.of_nat (size ds) - Z.of_nat (size ds') + shift_bit ds ∧
  0 ≤ c ≤ Z.of_nat (size ds) ∧
  (size ds' ≤ size ds)%nat.
Proof.
  intros E.
  destruct (anonymize_default_any ds w)
    as (r & c0 & ds0 & w0 & E0 & L & Hsz & Hc & Hle & _ & Hr).
  rewrite E in E0. injection E0 as <- <- <-.
  assert (c0 = c) as ->.
  { destruct (ds !! sop_instance_uid) as [elem|].
    - destruct (assigned elem _); destruct Hr as [[=] _]; done.
    - destruct Hr as [[=] _]. done. }
  split_and!; [done | lia | lia | lia | done].
Qed.

(** X6.  When the engine reports success under the default rules, the
    count it returns is the number of elements it deleted, plus one when the
    date shift gave AcquisitionDate a new value (the element converts, its
    value reads as 8 characters or more, and the setter took the new
    string): the date shift counts it without deleting anything.  The
    dataset it leaves is no larger than the input. *)
Theorem default_count_exact (ds ds' : Dataset) (w w' : W) (c : Z) :
  anonymize_dicom (DatasetObj ds) None w = (EngineOk c, DatasetObj ds', w') →
  (size ds' ≤ size ds)%nat ∧
  c = Z.of_nat (size ds - size ds') +
      match ds !! acquisition_date with
      | Some elem =>
          match conversion elem, py_str (value elem) with
          | None, Value s =>
              if bool_decide (8 ≤ String.length s)%nat
              then match convert_value (VR elem) (String.substring 0 4 s +:+ "0101") with
                   | Value _ => 1
                   | Raise _ => 0
                   end
              else 0
          | _, _ => 0
          end
      | None => 0
      end.
Proof.
  intros E. destruct (anonymize_default_ok _ _ _ _ _ E) as (_ & Hc & _ & Hle).
  split; [done |]. rewrite Hc, shift_bit_read.
  replace (Z.of_nat (size ds - size ds')) with (Z.of_nat (size ds) - Z.of_nat (size ds'))
    by lia.
  f_equal. destruct (ds !! acquisition_date) as [e|]; [| done].
  rewrite shiftable_read. destruct (conversion e); [done |].
  destruct (py_str (value e)) as [s|]; [| done].
  destruct (bool_decide (8 ≤ String.length s)%nat); [| done].
  now destruct (convert_value (VR e) _).
Qed.

(** X7.  Under the default rules the engine draws a fresh UID exactly
    when the dataset has SOPInstanceUID, and then only one, before it
    touches the element.  If the element converts and the setter takes the
    UID, the element ends with the UID's stored value and its VR, and the
    engine reports success; if not, the engine reports failure with that
    exception's text, the element is as it was and the UID is spent.
    StudyInstanceUID and SeriesInstanceUID are deleted, not regenerated. *)
Theorem one_fresh_uid (ds : Dataset) (w : W) :
  ∃ r ds' w',
    anonymize_dicom (DatasetObj ds) None w = (r, DatasetObj ds', w') ∧
    tag_for_keyword "SOPInstanceUID" = Some sop_instance_uid ∧
    w' = match ds !! sop_instance_uid with
         | Some _ => (generate_uid w).2
         | None => w
         end ∧
    match ds !! sop_instance_uid with
    | None => ds' !! sop_instance_uid = None ∧ ∃ c, r = EngineOk c
    | Some elem =>
        match conversion elem with
        | Some err => r = EngineFailed err ∧ ds' !! sop_instance_uid = Some elem
        | None =>
            match convert_value (VR elem) (generate_uid w).1 with
            | Value v =>
                (∃ c, r = EngineOk c) ∧
                ds' !! sop_instance_uid
                  = Some {| VR := VR elem; value := v; conversion := None |}
            | Raise err => r = EngineFailed err ∧ ds' !! sop_instance_uid = Some elem
            end
        end
    end ∧
    (∀ kw t, kw ∈ ["StudyInstanceUID"; "SeriesInstanceUID"] →
             tag_for_keyword kw = Some t → ds' !! t = None).
Proof.
  destruct (anonymize_default_any ds w)
    as (r & c & ds' & w' & E & L & _ & _ & _ & Hw & Hr).
  exists r, ds', w'. split_and!; [done | reflexivity | done | |].
  - destruct (ds !! sop_instance_uid) as [elem|]; [| destruct Hr; eauto].
    unfold assigned in Hr. destruct (conversion elem); [done |].
    destruct (convert_value (VR elem) _); destruct Hr; eauto.
  - intros kw t Hkw Ht.
    assert (t ∈ removed_tags) as Hrm.
    { eapply removed_tag_of_keyword; [| exact Ht].
      apply elem_of_cons in Hkw as [-> | Hkw]; [by_computation |].
      apply list_elem_of_singleton in Hkw as ->. by_computation. }
    rewrite L.
    + rewrite (bool_decide_true (t ∈ removed_tags)) by done. now rewrite orb_true_r.
    + intros ->. now destruct sop_instance_uid_kept.
Qed.

(** X8.  Running the engine under the default rules on what it left
    deletes nothing more: the second run leaves the same tags, and changes
    no element but those of AcquisitionDate and SOPInstanceUID; yet when it
    reports success its count is 1, not 0, if the date shift gives
    AcquisitionDate a value once more. *)
Theorem second_run (ds : Dataset) (w : W) :
  ∃ r1 ds1 w1 r2 ds2 w2,
    anonymize_dicom (DatasetObj ds) None w = (r1, DatasetObj ds1, w1) ∧
    anonymize_dicom (DatasetObj ds1) None w1 = (r2, DatasetObj ds2, w2) ∧
    (∀ t, is_Some (ds2 !! t) ↔ is_Some (ds1 !! t)) ∧
    size ds2 = size ds1 ∧
    (∀ t, t ≠ acquisition_date → t ≠ sop_instance_uid → ds2 !! t = ds1 !! t) ∧
    (∀ c2, r2 = EngineOk c2 → c2 = shift_bit ds1 ∧ 0 ≤ c2 ≤ 1).
Proof.
  destruct (anonymize_default_any ds w)
    as (r1 & c1 & ds1 & w1 & E1 & L1 & _ & _ & _ & _ & _).
  destruct (anonymize_default_any ds1 w1)
    as (r2 & c2 & ds2 & w2 & E2 & L2 & Hsz2 & _ & _ & _ & Hr2).
  exists r1, ds1, w1, r2, ds2, w2.
  assert (∀ t, t ≠ sop_instance_uid →
            is_private t || bool_decide (t ∈ removed_tags) = true → ds1 !! t = None)
    as Hgone by (intros t Ht Hb; now rewrite L1, Hb).
  assert (∀ t, is_Some (ds2 !! t) ↔ is_Some (ds1 !! t)) as Hsame.
  { intros t. destruct (decide (t = sop_instance_uid)) as [->|Hne].
    - destruct (ds1 !! sop_instance_uid) as [elem|].
      + destruct (assigned elem _); destruct Hr2 as [_ ->]; split; eauto.
      + destruct Hr2 as [_ ->]. done.
    - rewrite L2 by done.
      destruct (is_private t || bool_decide (t ∈ removed_tags)) eqn:Hb.
      + now rewrite Hgone.
      + destruct (bool_decide (t = acquisition_date)); [apply fmap_is_Some | done]. }
  assert (size ds2 = size ds1) as Hsize by now apply same_tags_same_size.
  split_and!; [done | done | done | done | |].
  - intros t Hacq Hsop. rewrite L2 by done.
    destruct (is_private t || bool_decide (t ∈ removed_tags)) eqn:Hb.
    + now rewrite Hgone.
    + now rewrite bool_decide_false.
  - intros c Hr.
    assert (c = c2) as ->.
    { destruct (ds1 !! sop_instance_uid) as [elem|].
      - destruct (assigned elem _); destruct Hr2 as [Hr2 _]; congruence.
      - destruct Hr2 as [Hr2 _]. congruence. }
    assert (c2 = shift_bit ds1) as -> by lia.
    split; [done |]. unfold shift_bit. destruct (shift_applies ds1 _); lia.
Qed.

End DefaultRules.

(** ** The batch run *)
Section Batch.
Context {W : Type} `{Host W}.
Variables input_dir output_dir : string.

Lemma grows_failure (stats : Stats) (entry : string) :
  grows stats (record_failure stats entry).
Proof. unfold grows. cbn. rewrite List.length_app. cbn. lia. Qed.

Lemma process_file_grows (n : nat) (idx : Z) (file_path : string)
    (stats : Stats) (w : W) :
  grows stats (process_file input_dir output_dir n idx file_path stats w).1.1.
Proof.
  unfold process_file, on_exception.
  destruct (load_dicom file_path w) as [obj|e]; [| apply grows_failure].
  destruct obj as [ds | len err].
  - cbn [py_len].
    destruct (anonymize_dicom (DatasetObj ds) None w) as [[[c|e] obj'] w'] eqn:E;
      [| apply grows_failure].
    destruct (engine_ok_dataset _ _ _ _ _ E) as [ds' ->].
    destruct (anonymize_default_ok _ _ _ _ _ E) as (_ & _ & _ & Hsize).
    destruct (relative_to _ _) as [rel|e]; [| apply grows_failure].
    destruct (mkdir_parents _ w') as [[[]|e] w2]; [| apply grows_failure].
    destruct (save_as _ _ w2) as [[[]|e] w3]; [| apply grows_failure].
    cbn [py_len]. unfold grows. cbn. lia.
  - destruct (py_len _) as [k|e]; [| apply grows_failure].
    rewrite anonymize_corrupt. apply grows_failure.
Qed.

Lemma process_files_grows (n : nat) (dicom_files : list string) (idx : Z)
    (stats : Stats) (w : W) :
  grows stats (process_files input_dir output_dir n idx dicom_files stats w).1.1.
Proof.
  revert idx stats w. induction dicom_files as [|f rest IH]; intros idx stats w.
  - unfold grows. cbn. lia.
  - cbn [process_files].
    pose proof (process_file_grows n idx f stats w) as Hstep.
    destruct (process_file input_dir output_dir n idx f stats w) as [[stats1 e1] w1].
    pose proof (IH (idx + 1) stats1 w1) as Hrest.
    destruct (process_files input_dir output_dir n (idx + 1) rest stats1 w1)
      as [[stats2 e2] w2].
    cbn in *. unfold grows in *. lia.
Qed.

(** The signals of a run, but for the last. *)
Lemma run_shape (w : W) :
  (∃ e, (run input_dir output_dir w).1 = [finished (StatusError e)]) ∨
  (∃ dicom_files w1,
     find_dicom_files input_dir w = Value dicom_files ∧ dicom_files ≠ [] ∧
     mkdir_parents output_dir w = (Value (), w1) ∧
     run input_dir output_dir w =
       (let '(stats, emitted, w2) :=
          process_files input_dir output_dir (length dicom_files) 1 dicom_files
            {| total := Z.of_nat (length dicom_files); successful := 0; failed := 0;
               total_tags_removed := 0; errors := [] |} w1 in
        ((emitted ++ [finished (StatusSuccess stats)])%list, w2))).
Proof.
  unfold run.
  destruct (find_dicom_files input_dir w) as [dicom_files|e]; [| eauto].
  destruct dicom_files as [|f rest]; [eauto |].
  destruct (mkdir_parents output_dir w) as [[[]|e] w1]; [| eauto].
  right. exists (f :: rest), w1. done.
Qed.

(** X9.  In the statistics of a run that ends with status success, the
    error list has exactly [failed] entries, and none of [successful],
    [failed] and [total_tags_removed] is negative. *)
Theorem stats_consistent (w w' : W) (emitted : list signal) (stats : Stats) :
  run input_dir output_dir w = (emitted, w') →
  finished (StatusSuccess stats) ∈ emitted →
  Z.of_nat (length (errors stats)) = failed stats ∧
  0 ≤ successful stats ∧ 0 ≤ failed stats ∧ 0 ≤ total_tags_removed stats.
Proof.
  intros Hrun Hin.
  destruct (run_shape w) as [[e He] | (files & w1 & Hfind & Hne & Hmk & Hrun')].
  - rewrite Hrun in He. cbn in He. subst emitted.
    now apply list_elem_of_singleton in Hin.
  - rewrite Hrun in Hrun'.
    match type of Hrun' with context [process_files _ _ ?n ?i ?l ?s ?w] =>
      pose proof (process_files_grows n l i s w) as Hgrow;
      destruct (process_files_counts input_dir output_dir n l i s w)
        as (stats' & emitted' & w2 & Heq & _ & _ & Hint)
    end.
    rewrite Heq in Hrun', Hgrow. injection Hrun' as -> ->.
    apply elem_of_app in Hin as [Hin | [= <-]%list_elem_of_singleton].
    + rewrite Forall_forall in Hint. now apply Hint in Hin.
    + unfold grows in Hgrow. cbn in Hgrow. lia.
Qed.

(** X10.  Every run, whatever the world, emits [finished] exactly once
    and as its last signal; every signal before it is a progress or a
    status. *)
Theorem finished_once_and_last (w : W) :
  ∃ before result,
    (run input_dir output_dir w).1 = (before ++ [finished result])%list ∧
    Forall interim before.
Proof.
  destruct (run_shape w) as [[e He] | (files & w1 & _ & _ & _ & Hrun)].
  - exists [], (StatusError e). split; [done | constructor].
  - rewrite Hrun.
    match goal with |- context [process_files _ _ ?n ?i ?l ?s ?w] =>
      destruct (process_files_counts input_dir output_dir n l i s w)
        as (stats' & emitted' & w2 & -> & _ & _ & Hint)
    end.
    eauto.
Qed.

Lemma numbered_from (idx j : Z) (f : string) (files : list string) :
  (j, f) ∈ numbered idx files → idx ≤ j.
Proof.
  revert idx. induction files as [|g rest IH]; intros idx Hin.
  - now apply elem_of_nil in Hin.
  - cbn [numbered] in Hin. apply elem_of_cons in Hin as [[= -> ->] | Hin]; [lia |].
    apply IH in Hin. lia.
Qed.

(** Whether the loop body emits for a file: it does unless the engine
    reports failure. *)
Lemma process_file_emits (n : nat) (idx : Z) (file_path : string)
    (stats : Stats) (w : W) :
  (engine_gives_up file_path w ∧
   (process_file input_dir output_dir n idx file_path stats w).1.2 = []) ∨
  (¬ engine_gives_up file_path w ∧
   (process_file input_dir output_dir n idx file_path stats w).1.2
   = [ progress (progress_percent idx n);
       status ("Processing " +:+ pretty idx +:+ "/" +:+ pretty n +:+ ": "
               +:+ path_name file_path) ]).
Proof.
  rewrite (process_file_signals input_dir output_dir n idx file_path stats w).
  unfold engine_gives_up, load_dicom.
  destruct (dcmread file_path w) as [obj|e] eqn:Hload.
  2:{ right. split; [| done]. intros (? & ? & ? & ? & ? & [=] & _). }
  destruct (py_len obj) as [k|e] eqn:Hlen.
  2:{ right. split; [| now destruct (anonymize_dicom obj None w) as [[[] ?] ?]].
      intros (? & ? & ? & ? & ? & [= <-] & Hk & _). congruence. }
  destruct (anonymize_dicom obj None w) as [[[c|e] obj'] w'] eqn:E.
  - right. split; [| done].
    intros (? & ? & ? & ? & ? & [= <-] & _ & E'). congruence.
  - left. split; [| done]. now exists obj, k, e, obj', w'.
Qed.

Lemma process_files_shown (n : nat) (dicom_files : list string) (idx : Z)
    (stats : Stats) (w : W) :
  ∃ shown,
    (process_files input_dir output_dir n idx dicom_files stats w).1.2
      = flat_map (λ '(j, f),
                    [ progress (progress_percent j n);
                      status ("Processing " +:+ pretty j +:+ "/" +:+ pretty n +:+ ": "
                              +:+ path_name f) ]) shown ∧
    shown `sublist_of` numbered idx dicom_files ∧
    ∀ (i : nat) (f : string),
      dicom_files !! i = Some f →
      ((idx + Z.of_nat i, f) ∈ shown ↔
       ¬ engine_gives_up f
           (process_files input_dir output_dir n idx (take i dicom_files) stats w).2).
Proof.
  revert idx stats w. induction dicom_files as [|f rest IH]; intros idx stats w.
  - exists []. split_and!; [done | constructor | intros i g Hi; done].
  - pose proof (process_file_emits n idx f stats w) as Hstep.
    assert (∀ i, (process_files input_dir output_dir n idx (take (S i) (f :: rest)) stats w).2
              = (process_files input_dir output_dir n (idx + 1) (take i rest)
                   (process_file input_dir output_dir n idx f stats w).1.1
                   (process_file input_dir output_dir n idx f stats w).2).2) as Hworld.
    { intros i. cbn [take process_files].
      destruct (process_file input_dir output_dir n idx f stats w) as [[s1 e1] w1].
      cbn [fst snd].
      now destruct (process_files input_dir output_dir n (idx + 1) (take i rest) s1 w1)
        as [[s2 e2] w2]. }
    cbn [process_files numbered].
    destruct (process_file input_dir output_dir n idx f stats w) as [[stats1 e1] w1].
    destruct (IH (idx + 1) stats1 w1) as (shown & Hsig & Hsub & Hiff).
    destruct (process_files input_dir output_dir n (idx + 1) rest stats1 w1)
      as [[stats2 e2] w2].
    cbn [fst snd] in *. subst e2.
    assert (∀ (i : nat) g, (idx + Z.of_nat (S i), g) ∈ shown ↔
              (idx + 1 + Z.of_nat i, g) ∈ shown) as Hshift.
    { intros i g. now replace (idx + Z.of_nat (S i)) with (idx + 1 + Z.of_nat i) by lia. }
    assert (∀ g, (idx, g) ∉ shown) as Hfresh.
    { intros g Hin. eapply elem_of_sublist in Hin; [| exact Hsub].
      apply numbered_from in Hin. lia. }
    destruct Hstep as [[Hup ->] | [Hup ->]].
    + exists shown. split_and!; [done | now apply sublist_cons |].
      intros [|i] g Hi.
      * cbn in Hi. injection Hi as <-. cbn [take process_files snd].
        replace (idx + Z.of_nat 0) with idx by lia. split; [| done].
        intros Hin. now apply Hfresh in Hin.
      * cbn in Hi. rewrite Hworld, Hshift. now apply Hiff.
    + exists ((idx, f) :: shown). split_and!; [done | now apply sublist_skip |].
      intros [|i] g Hi.
      * cbn in Hi. injection Hi as <-. cbn [take process_files snd].
        replace (idx + Z.of_nat 0) with idx by lia. split; [done | left].
      * cbn in Hi. rewrite Hworld, <- Hiff by done. rewrite <- Hshift.
        rewrite elem_of_cons. split; [| now right].
        intros [[= Heq _] | Hin]; [lia | done].
Qed.

(** X11.  In a run that gets to the loop, the signals before [finished]
    are a progress and a status for each file of the sorted list on which
    the engine does not report failure, with the percentage of the file's
    index (counted from 1) in the number of files and a status line naming
    index, number and file; they come in the order of the list, no file
    twice.  The files on which the engine reports failure, in the world the
    loop has reached by then, are the only ones left out. *)
Theorem signals_in_file_order (w w1 : W) (dicom_files : list string) :
  find_dicom_files input_dir w = Value dicom_files →
  dicom_files ≠ [] →
  mkdir_parents output_dir w = (Value (), w1) →
  ∃ shown stats,
    (run input_dir output_dir w).1
      = (flat_map (λ '(j, f),
                     [ progress (progress_percent j (length dicom_files));
                       status ("Processing " +:+ pretty j +:+ "/"
                               +:+ pretty (length dicom_files) +:+ ": "
                               +:+ path_name f) ]) shown
         ++ [finished (StatusSuccess stats)])%list ∧
    shown `sublist_of` numbered 1 dicom_files ∧
    ∀ (i : nat) (f : string),
      dicom_files !! i = Some f →
      ((1 + Z.of_nat i, f) ∈ shown ↔
       ¬ engine_gives_up f (world_at input_dir output_dir dicom_files i w1)).
Proof.
  intros Hfind Hne Hmk. unfold run, world_at. rewrite Hfind.
  destruct dicom_files as [|f rest]; [done |]. rewrite Hmk.
  match goal with |- context [process_files _ _ ?n ?i ?l ?s ?w] =>
    destruct (process_files_shown n l i s w) as (shown & Hsig & Hsub & Hiff);
    destruct (process_files input_dir output_dir n i l s w) as [[stats2 e2] w2]
  end.
  cbn [fst snd] in Hsig. cbn [fst snd]. subst e2. exists shown, stats2. done.
Qed.

(** X12.  A file that fails to load leaves the world as it was.  So
    does an object that is no dataset.  A dataset on which the engine
    reports failure has a SOPInstanceUID, and the world is as it was but for
    the one UID drawn for it: in neither case does the pass through the loop
    body make a directory or write a file. *)
Theorem failed_file_writes_nothing (n : nat) (idx : Z) (file_path : string)
    (stats : Stats) (w w1 : W) (text : string) :
  file_fails file_path w text w1 →
  (process_file input_dir output_dir n idx file_path stats w).2 = w1 ∧
  match dcmread file_path w with
  | Raise _ => w1 = w
  | Value (Corrupt _ _) => w1 = w
  | Value (DatasetObj ds) =>
      is_Some (ds !! sop_instance_uid) ∧ w1 = (generate_uid w).2
  end.
Proof.
  intros [e Hload | obj k e obj' w' Hload Hlen Heng];
    unfold process_file, load_dicom, on_exception; rewrite Hload.
  - done.
  - rewrite Hlen, Heng. split; [done |].
    destruct obj as [ds | len err].
    + destruct (anonymize_default_any ds w)
        as (r & c & ds' & w2 & E & _ & _ & _ & _ & Hw & Hr).
      rewrite Heng in E. injection E as <- _ <-.
      destruct (ds !! sop_instance_uid) as [elem|]; [eauto |].
      now destruct Hr.
    + rewrite anonymize_corrupt in Heng. now injection Heng as _ _ <-.
Qed.

(** X16.  A file that the loop counts as successful was loaded as a
    dataset and saved, as the engine left it, at the output directory joined
    with its path relative to the input directory; it is counted once, adds
    no error, is followed by its progress and status, and adds to
    [total_tags_removed] the number of elements deleted: the engine's count
    less the one the date shift may have added. *)
Theorem counted_file_was_saved (n : nat) (idx : Z) (file_path : string)
    (stats stats' : Stats) (emitted : list signal) (w w' : W) :
  process_file input_dir output_dir n idx file_path stats w = (stats', emitted, w') →
  successful stats' ≠ successful stats →
  ∃ ds ds' c relative_path w1 w2,
    dcmread file_path w = Value (DatasetObj ds) ∧
    anonymize_dicom (DatasetObj ds) None w = (EngineOk c, DatasetObj ds', w1) ∧
    relative_to file_path input_dir = Value relative_path ∧
    mkdir_parents (path_parent (path_join output_dir relative_path)) w1 = (Value (), w2) ∧
    save_as (DatasetObj ds') (path_join output_dir relative_path) w2 = (Value (), w') ∧
    successful stats' = successful stats + 1 ∧
    failed stats' = failed stats ∧
    errors stats' = errors stats ∧
    total_tags_removed stats' = total_tags_removed stats + Z.of_nat (size ds - size ds') ∧
    total_tags_removed stats' = total_tags_removed stats + (c - shift_bit ds) ∧
    emitted = after_file n idx file_path.
Proof.
  unfold process_file, load_dicom, on_exception.
  destruct (dcmread file_path w) as [obj|e] eqn:Hload;
    [| intros [= <- <- <-]; cbn; congruence].
  destruct obj as [ds | len err].
  - cbn [py_len].
    destruct (anonymize_dicom (DatasetObj ds) None w) as [[[c|e] obj'] w1] eqn:E;
      [| intros [= <- <- <-]; cbn; congruence].
    destruct (engine_ok_dataset _ _ _ _ _ E) as [ds' ->].
    destruct (anonymize_default_ok _ _ _ _ _ E) as (_ & Hc & _ & Hsize).
    destruct (relative_to file_path input_dir) as [rel|e] eqn:Hrel;
      [| intros [= <- <- <-]; cbn; congruence].
    destruct (mkdir_parents _ w1) as [[[]|e] w2] eqn:Hmk;
      [| intros [= <- <- <-]; cbn; congruence].
    destruct (save_as _ _ w2) as [[[]|e] w3] eqn:Hsave;
      [| intros [= <- <- <-]; cbn; congruence].
    cbn [py_len]. intros [= <- <- <-] _.
    exists ds, ds', c, rel, w1, w2. cbn. split_and!; try done; lia.
  - destruct (py_len (Corrupt len err)) as [k|e];
      [| intros [= <- <- <-]; cbn; congruence].
    rewrite anonymize_corrupt. intros [= <- <- <-]. cbn. congruence.
Qed.

End Batch.

(** ** The handlers *)
Section Handlers.
Context {W : Type} `{Host W}.
Variable isfile : string → W → bool.

Lemma check_tags_dataset (a : Dataset) (tags : list string)
    (removed : nat) (present : list string) :
  check_tags (DatasetObj a) tags removed present =
  Value ((removed + length (filter (λ kw, holds a kw = false) tags))%nat,
         (present ++ filter (λ kw, holds a kw = true) tags)%list).
Proof.
  revert removed present. induction tags as [|kw tags IH]; intros removed present.
  - cbn. now rewrite Nat.add_0_r, app_nil_r.
  - cbn [check_tags and_then py_contains]. fold (holds a kw). rewrite !filter_cons.
    destruct (holds a kw) eqn:Hkw.
    + rewrite IH, (decide_True (P := true = true)), (decide_False (P := true = false))
        by done.
      now rewrite <- app_assoc.
    + rewrite IH, (decide_False (P := false = true)), (decide_True (P := false = false))
        by done.
      cbn [length]. f_equal. f_equal. lia.
Qed.

Lemma filter_split_length (a : Dataset) (tags : list string) :
  (length (filter (λ kw, holds a kw = false) tags)
   + length (filter (λ kw, holds a kw = true) tags) = length tags)%nat.
Proof.
  induction tags as [|kw tags IH]; [done |]. rewrite !filter_cons.
  destruct (holds a kw).
  - rewrite (decide_False (P := true = false)), (decide_True (P := true = true)) by done.
    cbn [length]. lia.
  - rewrite (decide_True (P := false = false)), (decide_False (P := false = true)) by done.
    cbn [length]. lia.
Qed.

Lemma verify_files_datasets (orig_file anon_file : string) (w : W) (o a : Dataset) :
  orig_file ≠ "" → isfile orig_file w = true →
  anon_file ≠ "" → isfile anon_file w = true →
  dcmread orig_file w = Value (DatasetObj o) →
  dcmread anon_file w = Value (DatasetObj a) →
  verify_files isfile orig_file anon_file w =
  let present := filter (λ kw, holds a kw = true) sensitive_tags in
  Verified
    {| original_tags := size o;
       anonymized_tags := size a;
       tags_removed := Z.of_nat (size o) - Z.of_nat (size a);
       removed_count := length (filter (λ kw, holds a kw = false) sensitive_tags);
       still_present := present;
       pixel_data_present := holds a "PixelData" |}
    match present with [] => AllRemoved | _ => SomePresent present end.
Proof.
  intros Ho Hfo Ha Hfa Hlo Hla. unfold verify_files, verify_body, load_dicom.
  rewrite (proj2 (String.eqb_neq _ _) Ho), (proj2 (String.eqb_neq _ _) Ha), Hfo, Hfa.
  cbn [orb negb]. rewrite Hlo, Hla. cbn [and_then py_len].
  rewrite check_tags_dataset. cbn [and_then py_contains Nat.add app].
  reflexivity.
Qed.

(** X13.  On two files that load as datasets, [verify_files] reports as
    still present exactly those of its eight keywords that the second dataset
    has, in the order of its list; the count of removed ones is the rest of
    the eight; "tags removed" is the difference of the two sizes (negative
    when the second dataset is the larger); and the closing message says all
    was removed exactly when none of the eight is present.  Of the first
    dataset only the size is used. *)
Theorem verification_report (orig_file anon_file : string) (w : W) (o a : Dataset) :
  orig_file ≠ "" → isfile orig_file w = true →
  anon_file ≠ "" → isfile anon_file w = true →
  dcmread orig_file w = Value (DatasetObj o) →
  dcmread anon_file w = Value (DatasetObj a) →
  ∃ report box,
    verify_files isfile orig_file anon_file w = Verified report box ∧
    still_present report = filter (λ kw, holds a kw = true) sensitive_tags ∧
    (removed_count report + length (still_present report) = 8)%nat ∧
    tags_removed report = Z.of_nat (size o) - Z.of_nat (size a) ∧
    (box = AllRemoved ↔ still_present report = []).
Proof.
  intros Ho Hfo Ha Hfa Hlo Hla.
  rewrite (verify_files_datasets _ _ _ o a) by done. cbv zeta.
  eexists _, _. split; [reflexivity |]. cbn [still_present removed_count tags_removed].
  split_and!; [done | apply (filter_split_length a sensitive_tags) | done |].
  now destruct (filter _ sensitive_tags).
Qed.

Lemma removed_keyword_absent (ds a : Dataset) (w w' : W) (c : Z) (kw : string) :
  anonymize_dicom (DatasetObj ds) None w = (EngineOk c, DatasetObj a, w') →
  kw ∈ remove ANONYMIZATION_RULES → holds a kw = false.
Proof.
  intros E Hkw. unfold holds.
  destruct (tag_for_keyword kw) as [t|] eqn:Ht; [| done].
  assert (t ∈ removed_tags) as Hrm by (eapply removed_tag_of_keyword; eauto).
  destruct (anonymize_default_ok _ _ _ _ _ E) as (L & _).
  rewrite L by (intros ->; now destruct sop_instance_uid_kept).
  rewrite (bool_decide_true (t ∈ removed_tags)) by done.
  rewrite orb_true_r. apply bool_decide_false. now intros [? ?].
Qed.

(** X14.  What the engine leaves of a dataset under the default rules
    always passes [verify_files] against that dataset: none of the eight
    keywords is still present, all eight count as removed, "tags removed" is
    not negative and is the engine's count less the one the date shift may
    have added; and where "PixelData" names tag (7FE0,0010), pixel data is
    reported present exactly when the original had it. *)
Theorem engine_output_verifies (orig_file anon_file : string) (w w0 w0' : W)
    (o a : Dataset) (c : Z) :
  orig_file ≠ "" → isfile orig_file w = true →
  anon_file ≠ "" → isfile anon_file w = true →
  dcmread orig_file w = Value (DatasetObj o) →
  dcmread anon_file w = Value (DatasetObj a) →
  anonymize_dicom (DatasetObj o) None w0 = (EngineOk c, DatasetObj a, w0') →
  tag_for_keyword "PixelData" = Some pixel_data →
  ∃ report,
    verify_files isfile orig_file anon_file w = Verified report AllRemoved ∧
    still_present report = [] ∧
    removed_count report = 8%nat ∧
    0 ≤ tags_removed report ∧
    tags_removed report = c - shift_bit o ∧
    pixel_data_present report = bool_decide (is_Some (o !! pixel_data)).
Proof.
  intros Ho Hfo Ha Hfa Hlo Hla E Hpix.
  rewrite (verify_files_datasets _ _ _ o a) by done. cbv zeta.
  assert (Forall (λ kw, holds a kw = false) sensitive_tags) as Hnone.
  { assert (Forall (λ kw, kw ∈ remove ANONYMIZATION_RULES) sensitive_tags) as Hall
      by by_computation.
    eapply Forall_impl; [exact Hall |]. intros kw. now apply removed_keyword_absent with o w0 w0' c. }
  assert (filter (λ kw, holds a kw = true) sensitive_tags = []) as ->.
  { clear -Hnone. induction Hnone as [|kw l Hkw _ IH]; [done |].
    rewrite filter_cons, decide_False, IH; [done | congruence]. }
  assert (filter (λ kw, holds a kw = false) sensitive_tags = sensitive_tags) as ->.
  { clear -Hnone. induction Hnone as [|kw l Hkw _ IH]; [done |].
    now rewrite filter_cons, decide_True, IH. }
  destruct (anonymize_default_ok _ _ _ _ _ E) as (L & Hc & _ & Hsize).
  eexists. split; [reflexivity |].
  cbn [still_present removed_count tags_removed pixel_data_present].
  split_and!; [done | done | lia | lia |].
  unfold holds. rewrite Hpix. apply bool_decide_ext. rewrite L by done.
  assert (is_private pixel_data || bool_decide (pixel_data ∈ removed_tags) = false) as ->
    by (apply orb_false_intro; [reflexivity | apply bool_decide_false; by_computation]).
  now rewrite bool_decide_false.
Qed.

(** X15.  When [anonymize_single_file] reports success, the input file
    passed [isfile] and loaded as a dataset, the engine succeeded on it, the
    parent of the output path was made and what was saved at the output path
    is the dataset the engine left; the number shown as "Tags removed" is the
    engine's count: the number of elements deleted, plus one when
    AcquisitionDate was shifted. *)
Theorem single_file_success (input_file output_file shown : string) (w w' : W) (c : Z) :
  anonymize_single_file isfile input_file output_file w = (SingleSuccess c shown, w') →
  shown = output_file ∧ isfile input_file w = true ∧
  ∃ ds ds' w1 w2,
    dcmread input_file w = Value (DatasetObj ds) ∧
    anonymize_dicom (DatasetObj ds) None w = (EngineOk c, DatasetObj ds', w1) ∧
    mkdir_parents (path_parent output_file) w1 = (Value (), w2) ∧
    save_as (DatasetObj ds') output_file w2 = (Value (), w') ∧
    c = Z.of_nat (size ds - size ds') + shift_bit ds.
Proof.
  unfold anonymize_single_file.
  destruct (String.eqb input_file "" || negb (isfile input_file w)) eqn:Hguard; [done |].
  apply orb_false_elim in Hguard as [_ Hfile%negb_false_iff].
  destruct (String.eqb output_file ""); [done |].
  unfold load_dicom. destruct (dcmread input_file w) as [obj|e] eqn:Hload; [| done].
  destruct obj as [ds | len err]; [| now rewrite anonymize_corrupt].
  destruct (anonymize_dicom (DatasetObj ds) None w) as [[[c0|e] obj'] w1] eqn:E; [| done].
  destruct (engine_ok_dataset _ _ _ _ _ E) as [ds' ->].
  destruct (anonymize_default_ok _ _ _ _ _ E) as (_ & Hc & _ & Hsize).
  destruct (mkdir_parents _ w1) as [[[]|e] w2] eqn:Hmk; [| done].
  destruct (save_as _ _ w2) as [[[]|e] w3] eqn:Hsave; [| done].
  intros [= <- <- <-]. split_and!; [done | done |].
  exists ds, ds', w1, w2. split_and!; try done. lia.
Qed.

End Handlers.

End MoreFacts.

(** * The further properties on concrete inputs *)
Module MoreScenarios.
Import DicomAnonymizer AnonymizationWorker DicomAnonymizerApp.
Import Notions Terms InMemory Inputs Cases EngineFacts WorkerFacts MoreFacts.

Lemma discovery_sorted_witness :
  find_dicom_files "in" ward
    = Value ["in/a.dcm"; "in/broken.dcm"; "in/c.dcm"; "in/sub/b.dcm"] ∧
  StronglySorted str_le ["in/a.dcm"; "in/broken.dcm"; "in/c.dcm"; "in/sub/b.dcm"] ∧
  ∃ found, rglob_dcm "in" ward = Value found ∧
           ["in/a.dcm"; "in/broken.dcm"; "in/c.dcm"; "in/sub/b.dcm"] ≡ₚ found.
Proof.
  split; [vm_compute; reflexivity |].
  exact (discovery_sorted "in" ward
           ["in/a.dcm"; "in/broken.dcm"; "in/c.dcm"; "in/sub/b.dcm"] eq_refl).
Defined.

Lemma replacement_takes_effect_witness :
  (("PatientName", "ANONYMIZED") ∈ replace replace_only ∧
   tag_for_keyword "PatientName" = Some patient_name ∧
   (∀ kw' lit', (kw', lit') ∈ replace replace_only →
                tag_for_keyword kw' = Some patient_name → lit' = "ANONYMIZED") ∧
   (patient_name ∉ tags_of (remove replace_only)) ∧
   (patient_name ∉ tags_of (date_shift replace_only).*1) ∧
   is_private patient_name = false ∧
   (patient_name ∉ uid_tags) ∧
   john_doe !! patient_name = Some (element "PN" "Doe^John") ∧
   anonymize_dicom (DatasetObj john_doe) (Some replace_only) nowhere
     = (EngineOk 1, DatasetObj {[ patient_name := element "PN" "ANONYMIZED" ]}, nowhere)) ∧
  conversion (element "PN" "Doe^John") = None ∧
  ∃ v, convert_value (VR (element "PN" "Doe^John")) "ANONYMIZED" = Value v ∧
       ({[ patient_name := element "PN" "ANONYMIZED" ]} : Dataset) !! patient_name
       = Some {| VR := VR (element "PN" "Doe^John"); value := v; conversion := None |}.
Proof.
  assert (∀ kw' lit', (kw', lit') ∈ replace replace_only →
            tag_for_keyword kw' = Some patient_name → lit' = "ANONYMIZED") as Hsame.
  { intros kw' lit' Hin Ht.
    repeat (apply elem_of_cons in Hin as [[= -> ->] | Hin]); try reflexivity;
      try (vm_compute in Ht; discriminate).
    now apply elem_of_nil in Hin. }
  split.
  - split_and!; [repeat constructor | reflexivity | exact Hsame | by_computation
                 | by_computation | reflexivity | by_computation | reflexivity
                 | vm_compute; reflexivity].
  - apply (replacement_takes_effect replace_only john_doe
             {[ patient_name := element "PN" "ANONYMIZED" ]} nowhere nowhere 1
             "PatientName" "ANONYMIZED" patient_name (element "PN" "Doe^John"));
      [repeat constructor | reflexivity | exact Hsame | by_computation
       | by_computation | reflexivity | by_computation | reflexivity
       | vm_compute; reflexivity].
Defined.

Lemma default_count_exact_witness :
  anonymize_dicom (DatasetObj study) None nowhere
    = (EngineOk 3, DatasetObj study_anonymized, nowhere_next) ∧
  (size study_anonymized ≤ size study)%nat ∧
  3 = Z.of_nat (size study - size study_anonymized) + 1.
Proof.
  assert (anonymize_dicom (DatasetObj study) None nowhere
          = (EngineOk 3, DatasetObj study_anonymized, nowhere_next)) as Hrun
    by (vm_compute; reflexivity).
  split; [exact Hrun |].
  exact (default_count_exact study study_anonymized nowhere nowhere_next 3 Hrun).
Defined.

Lemma stats_consistent_witness :
  (run "in" "out" ward = ((run "in" "out" ward).1, (run "in" "out" ward).2) ∧
   finished (StatusSuccess ward_stats) ∈ (run "in" "out" ward).1) ∧
  Z.of_nat (length (errors ward_stats)) = failed ward_stats ∧
  0 ≤ successful ward_stats ∧ 0 ≤ failed ward_stats ∧
  0 ≤ total_tags_removed ward_stats.
Proof.
  assert (finished (StatusSuccess ward_stats) ∈ (run "in" "out" ward).1) as Hin
    by (vm_compute; repeat constructor).
  split; [split; [apply surjective_pairing | exact Hin] |].
  apply (stats_consistent "in" "out" ward (run "in" "out" ward).2
           (run "in" "out" ward).1 ward_stats);
    [apply surjective_pairing | exact Hin].
Defined.

Lemma signals_in_file_order_witness :
  (find_dicom_files "in" clinic = Value ["in/a.dcm"; "in/b.dcm"; "in/c.dcm"] ∧
   ["in/a.dcm"; "in/b.dcm"; "in/c.dcm"] ≠ [] ∧
   mkdir_parents "out" clinic = (Value (), (mkdir_parents "out" clinic).2)) ∧
  ∃ shown stats,
    (run "in" "out" clinic).1
      = (flat_map (λ '(j, f),
                     [ progress (progress_percent j 3);
                       status ("Processing " +:+ pretty j +:+ "/"
                               +:+ pretty 3%nat +:+ ": " +:+ path_name f) ]) shown
         ++ [finished (StatusSuccess stats)])%list ∧
    shown `sublist_of` numbered 1 ["in/a.dcm"; "in/b.dcm"; "in/c.dcm"] ∧
    ∀ (i : nat) (f : string),
      ["in/a.dcm"; "in/b.dcm"; "in/c.dcm"] !! i = Some f →
      ((1 + Z.of_nat i, f) ∈ shown ↔
       ¬ engine_gives_up f
           (world_at "in" "out" ["in/a.dcm"; "in/b.dcm"; "in/c.dcm"] i
              (mkdir_parents "out" clinic).2)).
Proof.
  split; [split_and!; [vm_compute; reflexivity | discriminate | reflexivity] |].
  apply (signals_in_file_order "in" "out" clinic (mkdir_parents "out" clinic).2
           ["in/a.dcm"; "in/b.dcm"; "in/c.dcm"]);
    [vm_compute; reflexivity | discriminate | reflexivity].
Defined.

Lemma failed_file_writes_nothing_witness :
  file_fails "in/b.dcm" clinic "Unknown Value Representation 'ZZ'"
    (generate_uid clinic).2 ∧
  (process_file "in" "out" 3 2 "in/b.dcm" ward_stats clinic).2 = (generate_uid clinic).2 ∧
  is_Some (unknown_vr !! sop_instance_uid) ∧
  (generate_uid clinic).2 = (generate_uid clinic).2.
Proof.
  assert (file_fails "in/b.dcm" clinic "Unknown Value Representation 'ZZ'"
            (generate_uid clinic).2) as Hfail.
  { apply (engine_error "in/b.dcm" clinic (DatasetObj unknown_vr) 2
             "Unknown Value Representation 'ZZ'" (DatasetObj unknown_vr_left));
      [reflexivity | reflexivity | vm_compute; reflexivity]. }
  split; [exact Hfail |].
  exact (failed_file_writes_nothing "in" "out" 3 2 "in/b.dcm" ward_stats
           clinic _ _ Hfail).
Defined.

Lemma verification_report_witness :
  ("raw/s.dcm" ≠ "" ∧ in_tree "raw/s.dcm" archive = true ∧
   "anon/s.dcm" ≠ "" ∧ in_tree "anon/s.dcm" archive = true ∧
   dcmread "raw/s.dcm" archive = Value (DatasetObj study) ∧
   dcmread "anon/s.dcm" archive = Value (DatasetObj study_anonymized)) ∧
  ∃ report box,
    verify_files in_tree "raw/s.dcm" "anon/s.dcm" archive = Verified report box ∧
    still_present report
      = filter (λ kw, holds study_anonymized kw = true) sensitive_tags ∧
    (removed_count report + length (still_present report) = 8)%nat ∧
    tags_removed report = Z.of_nat (size study) - Z.of_nat (size study_anonymized) ∧
    (box = AllRemoved ↔ still_present report = []).
Proof.
  split; [split_and!; (discriminate || reflexivity) |].
  apply (verification_report in_tree "raw/s.dcm" "anon/s.dcm" archive
           study study_anonymized);
    (discriminate || reflexivity).
Defined.

Lemma engine_output_verifies_witness :
  ("raw/s.dcm" ≠ "" ∧ in_tree "raw/s.dcm" archive = true ∧
   "anon/s.dcm" ≠ "" ∧ in_tree "anon/s.dcm" archive = true ∧
   @dcmread _ pixel_host "raw/s.dcm" archive = Value (DatasetObj study) ∧
   @dcmread _ pixel_host "anon/s.dcm" archive = Value (DatasetObj study_anonymized) ∧
   @anonymize_dicom _ pixel_host (DatasetObj study) None nowhere
     = (EngineOk 3, DatasetObj study_anonymized, nowhere_next) ∧
   @tag_for_keyword _ pixel_host "PixelData" = Some pixel_data) ∧
  ∃ report,
    @verify_files _ pixel_host in_tree "raw/s.dcm" "anon/s.dcm" archive
      = Verified report AllRemoved ∧
    still_present report = [] ∧
    removed_count report = 8%nat ∧
    0 ≤ tags_removed report ∧
    tags_removed report = 3 - @shift_bit _ pixel_host study ∧
    pixel_data_present report = bool_decide (is_Some (study !! pixel_data)).
Proof.
  split; [split_and!; (discriminate || (vm_compute; reflexivity)) |].
  apply (@engine_output_verifies _ pixel_host in_tree "raw/s.dcm" "anon/s.dcm"
           archive nowhere nowhere_next study study_anonymized 3);
    (discriminate || (vm_compute; reflexivity)).
Defined.

Lemma single_file_success_witness :
  anonymize_single_file in_tree "raw/s.dcm" "out/s.dcm" archive
    = (SingleSuccess 3 "out/s.dcm",
       (anonymize_single_file in_tree "raw/s.dcm" "out/s.dcm" archive).2) ∧
  "out/s.dcm" = "out/s.dcm" ∧ in_tree "raw/s.dcm" archive = true ∧
  ∃ ds ds' w1 w2,
    dcmread "raw/s.dcm" archive = Value (DatasetObj ds) ∧
    anonymize_dicom (DatasetObj ds) None archive = (EngineOk 3, DatasetObj ds', w1) ∧
    mkdir_parents (path_parent "out/s.dcm") w1 = (Value (), w2) ∧
    save_as (DatasetObj ds') "out/s.dcm" w2
      = (Value (), (anonymize_single_file in_tree "raw/s.dcm" "out/s.dcm" archive).2) ∧
    3 = Z.of_nat (size ds - size ds') + shift_bit ds.
Proof.
  assert (anonymize_single_file in_tree "raw/s.dcm" "out/s.dcm" archive
          = (SingleSuccess 3 "out/s.dcm",
             (anonymize_single_file in_tree "raw/s.dcm" "out/s.dcm" archive).2)) as Hrun
    by (vm_compute; reflexivity).
  split; [exact Hrun |].
  exact (single_file_success in_tree "raw/s.dcm" "out/s.dcm" "out/s.dcm" archive _ 3 Hrun).
Defined.

Lemma counted_file_was_saved_witness :
  (process_file "raw" "out" 1 1 "raw/s.dcm" ward_stats archive
     = ((process_file "raw" "out" 1 1 "raw/s.dcm" ward_stats archive).1.1,
        (process_file "raw" "out" 1 1 "raw/s.dcm" ward_stats archive).1.2,
        (process_file "raw" "out" 1 1 "raw/s.dcm" ward_stats archive).2) ∧
   successful (process_file "raw" "out" 1 1 "raw/s.dcm" ward_stats archive).1.1
     ≠ successful ward_stats) ∧
  ∃ ds ds' c relative_path w1 w2,
    dcmread "raw/s.dcm" archive = Value (DatasetObj ds) ∧
    anonymize_dicom (DatasetObj ds) None archive = (EngineOk c, DatasetObj ds', w1) ∧
    relative_to "raw/s.dcm" "raw" = Value relative_path ∧
    mkdir_parents (path_parent (path_join "out" relative_path)) w1 = (Value (), w2) ∧
    save_as (DatasetObj ds') (path_join "out" relative_path) w2
      = (Value (), (process_file "raw" "out" 1 1 "raw/s.dcm" ward_stats archive).2) ∧
    successful (process_file "raw" "out" 1 1 "raw/s.dcm" ward_stats archive).1.1
      = successful ward_stats + 1 ∧
    failed (process_file "raw" "out" 1 1 "raw/s.dcm" ward_stats archive).1.1
      = failed ward_stats ∧
    errors (process_file "raw" "out" 1 1 "raw/s.dcm" ward_stats archive).1.1
      = errors ward_stats ∧
    total_tags_removed (process_file "raw" "out" 1 1 "raw/s.dcm" ward_stats archive).1.1
      = total_tags_removed ward_stats + Z.of_nat (size ds - size ds') ∧
    total_tags_removed (process_file "raw" "out" 1 1 "raw/s.dcm" ward_stats archive).1.1
      = total_tags_removed ward_stats + (c - shift_bit ds) ∧
    (process_file "raw" "out" 1 1 "raw/s.dcm" ward_stats archive).1.2
      = after_file 1 1 "raw/s.dcm".
Proof.
  assert (successful (process_file "raw" "out" 1 1 "raw/s.dcm" ward_stats archive).1.1
          ≠ successful ward_stats) as Hcounted by (vm_compute; lia).
  split; [split; [vm_compute; reflexivity | exact Hcounted] |].
  apply (counted_file_was_saved "raw" "out" 1 1 "raw/s.dcm" ward_stats);
    [vm_compute; reflexivity | exact Hcounted].
Defined.

End MoreScenarios.
